(** * BEAM block scanner (beam/blockscanner.go)

    A shallow embedding of the block scanner of the BEAM adapter: the
    extraction engine ([ExtractTransaction], [InitExtractResult],
    [extractTxInput], [extractTxOutput]), the notifier, the batch pipeline
    and the scan loop with its fork recovery.

    Unsigned 64-bit heights are integers in [Z] with the wrap-around of Go's
    [uint64] arithmetic written out ([wrap64]).  Go's
    [map[string][]*TxExtractData] is a [gmap string (list TxExtractData)]. *)

From Stdlib Require Import ZArith Lia.
From Stdlib Require Import Ascii DecimalString.
From stdpp Require Import base option list strings gmap fin_maps.

Local Open Scope string_scope.
Local Open Scope list_scope.
Local Open Scope Z_scope.

(** ** Machine integers *)

Definition two64 : Z := 2 ^ 64.

(** The value of a [uint64] expression whose mathematical value is [z]. *)
Definition wrap64 (z : Z) : Z := z mod two64.

(** ** Errors

    Go's [error] values.  The two errors built by this file with
    [fmt.Errorf] are constructors of their own; every other error comes out
    of a collaborator (wallet client, store, observer) and carries its
    text. *)
Inductive error : Type :=
  | ErrRescanHeight          (* "block height to rescan must greater than 0." *)
  | ErrSaveWorkFailed        (* "block scanner saveWork failed" *)
  | ErrOther (msg : string).

Definition error_Error (e : error) : string :=
  match e with
  | ErrRescanHeight => "block height to rescan must greater than 0."
  | ErrSaveWorkFailed => "block scanner saveWork failed"
  | ErrOther msg => msg
  end.

(** A Go result pair [(v, err)], of which exactly one side is meaningful. *)
Inductive result (A : Type) : Type :=
  | Ok (v : A)
  | Err (e : error).
Arguments Ok {A} v.
Arguments Err {A} e.

(** ** shopspring/decimal and openwallet/common

    [decimal.Decimal] is [value * 10 ^ exp] with [value] a [big.Int].  The
    package is a dependency of the repository; the two operations the
    scanner uses are transcribed here from the library:

      func BigIntToDecimals(b *big.Int, decimals int32) decimal.Decimal
        = decimal.NewFromBigInt(b, 0).Shift(-decimals)
      func (d Decimal) String() string = d.string(true)

    where [string(trimTrailingZeros)] prints the integer part, then, when
    the exponent is negative, a dot and the fractional digits with the
    trailing zeros removed. *)
Module decimal.

Record Decimal : Type := mkDecimal { value : Z; exp : Z }.

(** [big.Int.String] of a non-negative integer. *)
Definition natString (n : Z) : string :=
  NilZero.string_of_uint (N.to_uint (Z.to_N n)).

(** [strings.Repeat("0", n)]. *)
Fixpoint zeros (n : nat) : string :=
  match n with
  | O => ""
  | S k => String "0"%char (zeros k)
  end.

(** Drops the trailing ['0'] characters, as the loop
    [for ; i >= 0; i-- { if fractionalPart[i] != '0' { break } }] does. *)
Fixpoint trimTrailingZeros (s : string) : string :=
  match s with
  | EmptyString => EmptyString
  | String c rest =>
      match trimTrailingZeros rest with
      | EmptyString => if Ascii.eqb c "0"%char then EmptyString else String c EmptyString
      | r => String c r
      end
  end.

Definition String_ (d : Decimal) : string :=
  if 0 <=? exp d then
    (if value d <? 0 then "-" else "") +:+ natString (Z.abs (value d) * 10 ^ exp d)
  else
    let str := natString (Z.abs (value d)) in
    let n := Z.to_nat (- exp d) in
    let len := String.length str in
    let intPart := if (n <? len)%nat then String.substring 0 (len - n) str else "0" in
    let fractionalPart :=
      if (n <? len)%nat then String.substring (len - n) n str
      else zeros (n - len) +:+ str in
    let fractionalPart := trimTrailingZeros fractionalPart in
    let number :=
      if (0 <? String.length fractionalPart)%nat
      then intPart +:+ "." +:+ fractionalPart
      else intPart in
    if value d <? 0 then "-" +:+ number else number.

End decimal.

Module common.
Definition BigIntToDecimals (b : Z) (decimals : Z) : decimal.Decimal :=
  decimal.mkDecimal b (0 + - decimals).
End common.

(** ** openwallet: the records the scanner fills in

    Only the fields the scanner assigns are kept; every other field of the
    Go structs stays at its zero value throughout. *)
Module openwallet.

Record Coin : Type := mkCoin {
  Coin_Symbol : string;
  Coin_IsContract : bool;
  Coin_ContractID : string }.

Record Recharge : Type := mkRecharge {
  r_Sid : string;
  r_TxID : string;
  r_Address : string;
  r_Coin : Coin;
  r_Amount : string;
  r_BlockHash : string;
  r_BlockHeight : Z;
  r_Index : Z;
  r_CreateAt : Z }.

(** [TxInput] and [TxOutPut] embed a [Recharge]. *)
Record TxInput : Type := mkTxInput { in_Recharge : Recharge }.
Record TxOutPut : Type := mkTxOutPut { out_Recharge : Recharge }.

Record Transaction : Type := mkTransaction {
  ow_WxID : string;
  ow_TxID : string;
  ow_Fees : string;
  ow_Coin : Coin;
  ow_BlockHash : string;
  ow_BlockHeight : Z;
  ow_Decimal : Z;
  ow_Amount : string;
  ow_ConfirmTime : Z;
  ow_From : list string;
  ow_To : list string;
  ow_Status : string;
  ow_Reason : string }.

Record TxExtractData : Type := mkTxExtractData {
  TxInputs : list TxInput;
  TxOutputs : list TxOutPut;
  Transaction_ : Transaction }.

Definition BalanceModelTypeAddress : Z := 0.

Record ScanTarget : Type := mkScanTarget {
  Address : string;
  BalanceModelType : Z }.

(** [type BlockScanTargetFunc func(target ScanTarget) (string, bool)] *)
Definition BlockScanTargetFunc : Type := ScanTarget -> string * bool.

Record BlockHeader : Type := mkBlockHeader {
  bh_Hash : string;
  bh_Previousblockhash : string;
  bh_Height : Z;
  bh_Fork : bool;
  bh_Symbol : string }.

(** [feeCharge.Amount = ...] on a copy of a [TxInput]. *)
Definition TxInput_set_Amount (i : TxInput) (a : string) : TxInput :=
  let r := in_Recharge i in
  mkTxInput (mkRecharge (r_Sid r) (r_TxID r) (r_Address r) (r_Coin r) a
               (r_BlockHash r) (r_BlockHeight r) (r_Index r) (r_CreateAt r)).

(** [transx.WxID = wxID] *)
Definition Transaction_set_WxID (t : Transaction) (w : string) : Transaction :=
  mkTransaction w (ow_TxID t) (ow_Fees t) (ow_Coin t) (ow_BlockHash t)
    (ow_BlockHeight t) (ow_Decimal t) (ow_Amount t) (ow_ConfirmTime t)
    (ow_From t) (ow_To t) (ow_Status t) (ow_Reason t).

End openwallet.
Import openwallet.

(** ** The adapter's own records *)

(** Modelled from the spec: the struct [Block] is declared outside the
    scanner file; section 3 gives it as height, hash and previous hash, and
    the scanner reads the fields under these names. *)
Record Block : Type := mkBlock {
  Height : Z;
  Hash : string;
  PrevBlockHash : string }.

(** Modelled from the spec: the struct [Transaction] is declared outside
    the scanner file; section 3 gives its fields, and the scanner reads or
    writes them under these names. *)
Record Transaction : Type := mkTrx {
  trx_TxID : string;
  trx_BlockHeight : Z;
  trx_BlockHash : string;
  trx_Sender : string;
  trx_Receiver : string;
  trx_Value : Z;
  trx_Fee : Z;
  trx_CreateTime : Z }.

(** [ExtractResult] *)
Record ExtractResult : Type := mkExtractResult {
  extractData : gmap string (list TxExtractData);
  er_TxID : string;
  er_BlockHeight : Z;
  Success : bool }.

(** [result.extractData[sourceKey] = ...] *)
Definition ExtractResult_set_extractData
    (r : ExtractResult) (m : gmap string (list TxExtractData)) : ExtractResult :=
  mkExtractResult m (er_TxID r) (er_BlockHeight r) (Success r).

Definition ExtractResult_set_Success (r : ExtractResult) (b : bool) : ExtractResult :=
  mkExtractResult (extractData r) (er_TxID r) (er_BlockHeight r) b.

(** Modelled from the spec: the method [Block.BlockHeader(symbol)] is
    declared outside the scanner file; the header handed to the observers
    carries the block's hash, previous hash and height (section 3) and the
    asset symbol, with the fork flag clear. *)
Definition Block_BlockHeader (b : Block) (symbol : string) : BlockHeader :=
  mkBlockHeader (Hash b) (PrevBlockHash b) (Height b) false symbol.

Definition BlockHeader_set_Fork (h : BlockHeader) (f : bool) : BlockHeader :=
  mkBlockHeader (bh_Hash h) (bh_Previousblockhash h) (bh_Height h) f (bh_Symbol h).

(** ** Extraction engine *)
Section Engine.

(** [bs.wm.Symbol()] and [bs.wm.Decimal()] of the wallet manager. *)
Variable wm_Symbol : string.
Variable wm_Decimal : Z.

(** openwallet's identifier generators, digests of their arguments. *)
Variable GenTxInputSID : string -> string -> string -> Z -> string.
Variable GenTxOutPutSID : string -> string -> string -> Z -> string.
Variable GenTransactionWxID : openwallet.Transaction -> string.

(** The wallet client's [GetBlockByHeight]. *)
Variable GetBlockByHeight : Z -> result Block.

Definition extractTxInput (tx : Transaction) (txExtractData : TxExtractData)
    : TxExtractData :=
  let coin := mkCoin wm_Symbol false "" in
  let amount := common.BigIntToDecimals (trx_Value tx) wm_Decimal in
  (* the transfer itself, the first TxInput *)
  let txInput :=
    mkTxInput
      (mkRecharge
         (GenTxInputSID (trx_TxID tx) wm_Symbol (Coin_ContractID coin) 0)
         (trx_TxID tx) (trx_Sender tx) coin (decimal.String_ amount)
         (trx_BlockHash tx) (trx_BlockHeight tx) 0 (trx_CreateTime tx)) in
  let inputs := TxInputs txExtractData ++ [txInput] in
  (* the fee, a copy of the first entry with its own amount *)
  let fees := common.BigIntToDecimals (trx_Fee tx) wm_Decimal in
  let feeCharge := TxInput_set_Amount txInput (decimal.String_ fees) in
  mkTxExtractData (inputs ++ [feeCharge]) (TxOutputs txExtractData)
    (Transaction_ txExtractData).

Definition extractTxOutput (tx : Transaction) (txExtractData : TxExtractData)
    : TxExtractData :=
  let coin := mkCoin wm_Symbol false "" in
  let amount := common.BigIntToDecimals (trx_Value tx) wm_Decimal in
  let txOutput :=
    mkTxOutPut
      (mkRecharge
         (GenTxOutPutSID (trx_TxID tx) wm_Symbol (Coin_ContractID coin) 0)
         (trx_TxID tx) (trx_Receiver tx) coin (decimal.String_ amount)
         (trx_BlockHash tx) (trx_BlockHeight tx) 0 (trx_CreateTime tx)) in
  mkTxExtractData (TxInputs txExtractData) (TxOutputs txExtractData ++ [txOutput])
    (Transaction_ txExtractData).

(** The [openwallet.Transaction] that [InitExtractResult] builds, with its
    [WxID] filled in. *)
Definition newTransx (tx : Transaction) : openwallet.Transaction :=
  let coin := mkCoin wm_Symbol false "" in
  let amount := common.BigIntToDecimals (trx_Value tx) wm_Decimal in
  let transx :=
    mkTransaction "" (trx_TxID tx) "0" coin (trx_BlockHash tx) (trx_BlockHeight tx)
      wm_Decimal (decimal.String_ amount) (trx_CreateTime tx)
      [trx_Sender tx +:+ ":" +:+ decimal.String_ amount]
      [trx_Receiver tx +:+ ":" +:+ decimal.String_ amount]
      "1" "" in
  let wxID := GenTransactionWxID transx in
  Transaction_set_WxID transx wxID.

(** The [TxExtractData] that [InitExtractResult] builds for one
    transaction.  operate = 0: input and output, 1: input only,
    2: output only. *)
Definition initTxExtractData (tx : Transaction) (operate : Z) : TxExtractData :=
  let txExtractData := mkTxExtractData [] [] (newTransx tx) in
  if operate =? 0 then extractTxOutput tx (extractTxInput tx txExtractData)
  else if operate =? 1 then extractTxInput tx txExtractData
  else if operate =? 2 then extractTxOutput tx txExtractData
  else txExtractData.

Definition InitExtractResult (tx : Transaction) (sourceKey : string)
    (result : ExtractResult) (operate : Z) : ExtractResult :=
  let txExtractDataArray :=
    match extractData result !! sourceKey with
    | Some a => a
    | None => []
    end in
  let txExtractData := initTxExtractData tx operate in
  let txExtractDataArray := txExtractDataArray ++ [txExtractData] in
  ExtractResult_set_extractData result
    (<[sourceKey := txExtractDataArray]> (extractData result)).

(** The transaction as [ExtractTransaction] leaves it: the caller's block
    height and hash, or, when no hash was given, those of the block the
    wallet client finds at the transaction's own height. *)
Definition stampTransaction (blockHeight : Z) (blockHash : string)
    (trx : Transaction) : Transaction :=
  let '(blockHeight, blockHash) :=
    if (String.length blockHash =? 0)%nat then
      match GetBlockByHeight (trx_BlockHeight trx) with
      | Ok block => (Height block, Hash block)
      | Err _ => (blockHeight, blockHash)
      end
    else (blockHeight, blockHash) in
  mkTrx (trx_TxID trx) blockHeight blockHash (trx_Sender trx) (trx_Receiver trx)
    (trx_Value trx) (trx_Fee trx) (trx_CreateTime trx).

(** [ExtractTransaction] returns its result; the second component is the
    transaction behind the pointer [trx] after the call. *)
Definition ExtractTransaction (blockHeight : Z) (blockHash : string)
    (trx : Transaction) (scanTargetFunc : BlockScanTargetFunc)
    : ExtractResult * Transaction :=
  let result := mkExtractResult ∅ (trx_TxID trx) blockHeight false in
  let trx := stampTransaction blockHeight blockHash trx in
  let from := trx_Sender trx in
  let to := trx_Receiver trx in
  let '(accountId, ok1) := scanTargetFunc (mkScanTarget from BalanceModelTypeAddress) in
  let '(accountId2, ok2) := scanTargetFunc (mkScanTarget to BalanceModelTypeAddress) in
  let result :=
    if bool_decide (accountId = accountId2)
       && (0 <? String.length accountId)%nat
       && (0 <? String.length accountId2)%nat
    then InitExtractResult trx accountId result 0
    else
      let result := if ok1 then InitExtractResult trx accountId result 1 else result in
      if ok2 then InitExtractResult trx accountId2 result 2 else result in
  (ExtractResult_set_Success result true, trx).

End Engine.

(** ** Local ledger store and notification log *)

(** Modelled from the spec: the [UnscanRecord] struct and its constructor
    [NewUnscanRecord] are not part of the scanner file; section 3 gives the
    record as block height, txID (empty for the whole block) and reason. *)
Record UnscanRecord : Type := mkUnscanRecord {
  ur_BlockHeight : Z;
  ur_TxID : string;
  ur_Reason : string }.

Definition NewUnscanRecord (height : Z) (txID reason : string) : UnscanRecord :=
  mkUnscanRecord height txID reason.

(** Modelled from the spec: the wallet client's status report is declared
    outside the scanner file; [GetCurrentBlock] reads the current height,
    hash and previous hash from it (section 6, currentBlock). *)
Record WalletStatus : Type := mkWalletStatus {
  CurrentHeight : Z;
  CurrentStateHash : string;
  PrevStateHash : string }.

(** What a scan reads and writes besides its local variables: the flag
    [Scanning] and the setting [RescanLastBlockCount] of the scanner, the
    persisted cursor, blocks and unscanned records of the wallet manager's
    store, and, as a log, what has been handed to the observers:
    [blockNotified] has one entry (observer index, header) per
    [BlockScanNotify] call and [dataNotified] one entry (observer index,
    key, data) per [BlockExtractDataNotify] call. *)
Record State : Type := mkState {
  Scanning : bool;
  RescanLastBlockCount : Z;
  localNewBlock : Z * string;
  localBlocks : gmap Z Block;
  unscanRecords : list UnscanRecord;
  blockNotified : list (nat * BlockHeader);
  dataNotified : list (nat * string * TxExtractData) }.

Definition set_localNewBlock (c : Z * string) (s : State) : State :=
  mkState (Scanning s) (RescanLastBlockCount s) c (localBlocks s)
    (unscanRecords s) (blockNotified s) (dataNotified s).
Definition set_localBlocks (m : gmap Z Block) (s : State) : State :=
  mkState (Scanning s) (RescanLastBlockCount s) (localNewBlock s) m
    (unscanRecords s) (blockNotified s) (dataNotified s).
Definition set_unscanRecords (l : list UnscanRecord) (s : State) : State :=
  mkState (Scanning s) (RescanLastBlockCount s) (localNewBlock s) (localBlocks s)
    l (blockNotified s) (dataNotified s).
Definition set_blockNotified (l : list (nat * BlockHeader)) (s : State) : State :=
  mkState (Scanning s) (RescanLastBlockCount s) (localNewBlock s) (localBlocks s)
    (unscanRecords s) l (dataNotified s).
Definition set_dataNotified (l : list (nat * string * TxExtractData)) (s : State)
    : State :=
  mkState (Scanning s) (RescanLastBlockCount s) (localNewBlock s) (localBlocks s)
    (unscanRecords s) (blockNotified s) l.

(** Modelled from the spec: the wallet manager's store operations
    ([GetLocalNewBlock], [SaveLocalNewBlock], [GetLocalBlock],
    [SaveLocalBlock], [SaveUnscanRecord], [DeleteUnscanRecord],
    [GetUnscanRecords]) are not part of the scanner file.  Section 2 and
    section 6 give the store as the persisted last-scanned (height, hash),
    historical blocks by height, and a queue of unscanned records that can
    be deleted by height.  An absent cursor reads as height 0. *)
Definition GetLocalNewBlock (s : State) : Z * string := localNewBlock s.

Definition SaveLocalNewBlock (height : Z) (hash : string) (s : State) : State :=
  set_localNewBlock (height, hash) s.

Definition GetLocalBlock (height : Z) (s : State) : result Block :=
  match localBlocks s !! height with
  | Some b => Ok b
  | None => Err (ErrOther "not found")
  end.

Definition SaveLocalBlock (b : Block) (s : State) : State :=
  set_localBlocks (<[Height b := b]> (localBlocks s)) s.

Definition SaveUnscanRecord (r : UnscanRecord) (s : State) : State :=
  set_unscanRecords (unscanRecords s ++ [r]) s.

Definition DeleteUnscanRecord (height : Z) (s : State) : State :=
  set_unscanRecords
    (filter (fun r => ur_BlockHeight r ≠ height) (unscanRecords s)) s.

Definition GetUnscanRecords (s : State) : list UnscanRecord := unscanRecords s.

(** An observer of the scanner: the answer of its
    [BlockExtractDataNotify], [None] for a nil error. *)
Record Observer : Type := mkObserver {
  BlockExtractDataNotify : string -> TxExtractData -> option error }.

(** Control of one pass through the body of the scan loop. *)
Inductive control (A B : Type) : Type :=
  | Continue (a : A)     (* next iteration *)
  | Break (a : A)        (* leave the loop, go on after it *)
  | Return (b : B).      (* leave the function *)
Arguments Continue {A B} a.
Arguments Break {A B} a.
Arguments Return {A B} b.

(** The local variables of [ScanBlockTask] that live across iterations,
    with the state. *)
Record LoopState : Type := mkLoop {
  currentHeight : Z;
  currentHash : string;
  loopState : State }.

(** The state a pass through the loop body leaves behind. *)
Definition stateAfter (c : control LoopState State) : State :=
  match c with
  | Continue l => loopState l
  | Break l => loopState l
  | Return s => s
  end.

(** How the scan loop ends: by [break], by [return], or not within the
    given number of iterations. *)
Inductive loopExit : Type :=
  | Broke (l : LoopState)
  | Returned (s : State)
  | OutOfFuel (l : LoopState).

(** ** Notifier, batch pipeline and scan loop *)
Section Scanner.

Variable wm_Symbol : string.
Variable wm_Decimal : Z.
Variable GenTxInputSID : string -> string -> string -> Z -> string.
Variable GenTxOutPutSID : string -> string -> string -> Z -> string.
Variable GenTransactionWxID : openwallet.Transaction -> string.

(** The wallet client and the wallet manager's transaction listing. *)
Variable GetWalletStatus : result WalletStatus.
Variable GetBlockByHeight : Z -> result Block.
Variable GetTransactionsByHeight : Z -> result (list Transaction).

(** [bs.Observers] and [bs.ScanTargetFunc] of the scanner base. *)
Variable Observers : list Observer.
Variable ScanTargetFunc : BlockScanTargetFunc.

(** The order in which the results of the concurrent extraction tasks of
    one block reach the consumer [saveWork]: some rearrangement of the
    order of submission. *)
Variable schedule : list ExtractResult -> list ExtractResult.

(** The store's bulk cleanup [DeleteUnscanRecordNotFindTX], which is not
    part of the scanner file. *)
Variable DeleteUnscanRecordNotFindTX : State -> State.

Definition GetCurrentBlock : result Block :=
  match GetWalletStatus with
  | Err e => Err e
  | Ok wallet =>
      Ok (mkBlock (CurrentHeight wallet) (CurrentStateHash wallet)
            (PrevStateHash wallet))
  end.

Definition GetBlockHeight : result Z :=
  match GetCurrentBlock with
  | Err e => Err e
  | Ok block => Ok (Height block)
  end.

Definition GetCurrentBlockHeader : result BlockHeader :=
  match GetCurrentBlock with
  | Err e => Err e
  | Ok block => Ok (mkBlockHeader (Hash block) "" (Height block) false "")
  end.

Definition SetRescanBlockHeight (height : Z) (s : State) : State * option error :=
  let height := wrap64 (height - 1) in
  if height <? 0 then (s, Some ErrRescanHeight)
  else
    match GetBlockByHeight height with
    | Err e => (s, Some e)
    | Ok block => (SaveLocalNewBlock height (Hash block) s, None)
    end.

Definition GetScannedBlockHeader (s : State) : result BlockHeader :=
  let '(blockHeight, hash) := GetLocalNewBlock s in
  if blockHeight =? 0 then
    (* nothing recorded locally: start below the wallet's current block *)
    match GetCurrentBlockHeader with
    | Err e => Err e
    | Ok blockHeader =>
        let blockHeight := wrap64 (bh_Height blockHeader - 1) in
        match GetBlockByHeight blockHeight with
        | Err e => Err e
        | Ok block => Ok (mkBlockHeader (Hash block) "" blockHeight false "")
        end
    end
  else Ok (mkBlockHeader hash "" blockHeight false "").

(** [BlockScannerBase.NewBlockNotify]: every observer is handed the
    header; what the observers answer is not looked at. *)
Definition NewBlockNotify (header : BlockHeader) (s : State) : State :=
  set_blockNotified
    (blockNotified s ++ map (fun o => (o, header)) (seq 0 (length Observers))) s.

Definition newBlockNotify (block : Block) (isFork : bool) (s : State) : State :=
  let header := Block_BlockHeader block wm_Symbol in
  let header := BlockHeader_set_Fork header isFork in
  NewBlockNotify header s.

(** One delivery of [newExtractDataNotify]: the observer is called, and a
    failure is turned into an unscanned record for the block. *)
Definition notifyOne (height : Z) (o : nat * Observer) (key : string)
    (data : TxExtractData) (s : State) : State :=
  let s := set_dataNotified (dataNotified s ++ [(o.1, key, data)]) s in
  match BlockExtractDataNotify o.2 key data with
  | Some _ =>
      SaveUnscanRecord (NewUnscanRecord height "" "ExtractData Notify failed.") s
  | None => s
  end.

(** The three nested loops of [newExtractDataNotify].  Go leaves the
    order in which a map is ranged over open; here the observers are
    taken in list order and the keys in the order of [map_to_list]. *)
Definition newExtractDataNotify (height : Z)
    (extractData : gmap string (list TxExtractData)) (s : State)
    : State * option error :=
  let s :=
    foldl (fun s o =>
      foldl (fun s kv =>
        foldl (fun s data => notifyOne height o kv.1 data s) s kv.2)
        s (map_to_list extractData))
      s (imap (fun i o => (i, o)) Observers) in
  (s, None).

(** The counters of [BatchExtractTransaction] that [saveWork] updates. *)
Record counters : Type := mkCounters { done : Z; failed : Z }.

(** The body of the loop of [saveWork] for one result. *)
Definition saveOne (height : Z) (acc : State * counters) (gets : ExtractResult)
    : State * counters :=
  let '(s, c) := acc in
  let '(s, c) :=
    if Success gets then
      let '(s, notifyErr) := newExtractDataNotify height (extractData gets) s in
      match notifyErr with
      | Some _ => (s, mkCounters (done c) (failed c + 1))
      | None => (s, c)
      end
    else
      (SaveUnscanRecord (NewUnscanRecord height "" "") s,
       mkCounters (done c) (failed c + 1)) in
  (s, mkCounters (done c + 1) (failed c)).

Definition saveWork (height : Z) (results : list ExtractResult) (s : State)
    : State * counters :=
  foldl (saveOne height) (s, mkCounters 0 0) results.

(** The results the extraction tasks of a block produce, in the order of
    submission. *)
Definition extractWork (blockHeight : Z) (blockHash : string)
    (txs : list Transaction) : list ExtractResult :=
  map (fun tx =>
         (ExtractTransaction wm_Symbol wm_Decimal GenTxInputSID GenTxOutPutSID
            GenTransactionWxID GetBlockByHeight blockHeight blockHash tx
            ScanTargetFunc).1) txs.

Definition BatchExtractTransaction (blockHeight : Z) (blockHash : string)
    (s : State) : State * option error :=
  match GetTransactionsByHeight blockHeight with
  | Err e => (s, Some e)
  | Ok txs =>
      if (length txs =? 0)%nat then (s, None)
      else
        let '(s, c) :=
          saveWork blockHeight (schedule (extractWork blockHeight blockHash txs)) s in
        if 0 <? failed c then (s, Some ErrSaveWorkFailed) else (s, None)
  end.

Definition scanBlock (height : Z) (s : State) : State * result Block :=
  match GetBlockByHeight height with
  | Err e =>
      (SaveUnscanRecord (NewUnscanRecord height "" (error_Error e)) s, Err e)
  | Ok block =>
      let '(s, _) := BatchExtractTransaction (Height block) (Hash block) s in
      (s, Ok block)
  end.

Definition ScanBlock (height : Z) (s : State) : State * option error :=
  match scanBlock height s with
  | (s, Err e) => (s, Some e)
  | (s, Ok block) => (newBlockNotify block false s, None)
  end.

(** The block a rewound scan starts from: the local copy, or else the
    wallet client's block at that height. *)
Definition resolveAnchor (height : Z) (s : State) : result Block :=
  match GetLocalBlock height s with
  | Ok localBlock => Ok localBlock
  | Err _ => GetBlockByHeight height
  end.

(** The fork branch of the scan loop: [currentHeight] is the height of
    the block just fetched, whose [PrevBlockHash] differs from
    [currentHash]. *)
Definition forkRecover (currentHeight : Z) (currentHash : string) (s : State)
    : control LoopState State :=
  (* the local copy of the block that fell off the chain *)
  let forkBlock := GetLocalBlock (wrap64 (currentHeight - 1)) s in
  let s := DeleteUnscanRecord (wrap64 (currentHeight - 1)) s in
  (* two blocks back *)
  let currentHeight := wrap64 (currentHeight - 2) in
  let currentHeight := if currentHeight <=? 0 then 1 else currentHeight in
  match resolveAnchor currentHeight s with
  | Err _ => Break (mkLoop currentHeight currentHash s)
  | Ok localBlock =>
      let currentHash := Hash localBlock in
      (* the new starting point of the scan *)
      let s := SaveLocalNewBlock (Height localBlock) (Hash localBlock) s in
      let s :=
        match forkBlock with
        | Ok forkBlock => newBlockNotify forkBlock true s
        | Err _ => s
        end in
      Continue (mkLoop currentHeight currentHash s)
  end.

(** The notifications a fork recovery at fetched height [H] sends: one
    fork-flagged header per observer, built from the local copy of block
    [H - 1], when there is one. *)
Definition forkNotifications (H : Z) (s : State) : list (nat * BlockHeader) :=
  match localBlocks s !! (H - 1) with
  | Some forkBlock =>
      map (fun o => (o, BlockHeader_set_Fork (Block_BlockHeader forkBlock wm_Symbol) true))
        (seq 0 (length Observers))
  | None => []
  end.

(** One pass through the body of the loop of [ScanBlockTask]. *)
Definition scanIter (l : LoopState) : control LoopState State :=
  let s := loopState l in
  if negb (Scanning s) then Return s
  else
    match GetBlockHeight with
    | Err _ => Break l
    | Ok maxHeight =>
        if maxHeight <=? currentHeight l then Break l
        else
          let currentHeight := wrap64 (currentHeight l + 1) in
          match GetBlockByHeight currentHeight with
          | Err e =>
              let unscanRecord := NewUnscanRecord currentHeight "" (error_Error e) in
              Continue (mkLoop currentHeight (currentHash l)
                          (SaveUnscanRecord unscanRecord s))
          | Ok block =>
              if negb (bool_decide (currentHash l = PrevBlockHash block)) then
                forkRecover currentHeight (currentHash l) s
              else
                match BatchExtractTransaction (Height block) (Hash block) s with
                | (s, Some _) => Return s
                | (s, None) =>
                    let currentHash := Hash block in
                    let s := SaveLocalNewBlock currentHeight currentHash s in
                    let s := SaveLocalBlock block s in
                    let s := newBlockNotify block false s in
                    Continue (mkLoop currentHeight currentHash s)
                end
          end
    end.

(** The loop of [ScanBlockTask], cut off after [fuel] iterations. *)
Fixpoint scanLoop (fuel : nat) (l : LoopState) : loopExit :=
  match fuel with
  | O => OutOfFuel l
  | S fuel =>
      match scanIter l with
      | Continue l' => scanLoop fuel l'
      | Break l' => Broke l'
      | Return s => Returned s
      end
  end.

(** The heights [i, i+1, ...] below [h], at most [n] of them: the values
    the variable [i] of
    [for i := currentHeight - bs.RescanLastBlockCount; i < currentHeight; i++]
    takes. *)
Fixpoint heightsBelow (n : nat) (i h : Z) : list Z :=
  match n with
  | O => []
  | S n => if i <? h then i :: heightsBelow n (wrap64 (i + 1)) h else []
  end.

(** The first value of [i] in the tail rescan. *)
Definition tailRescanStart (currentHeight count : Z) : Z :=
  wrap64 (currentHeight - count).

(** The heights the tail rescan passes to [scanBlock], in order. *)
Definition tailRescanHeights (currentHeight count : Z) : list Z :=
  let i := tailRescanStart currentHeight count in
  heightsBelow (Z.to_nat (currentHeight - i)) i currentHeight.

Definition tailRescan (currentHeight : Z) (s : State) : State :=
  foldl (fun s i => (scanBlock i s).1) s
    (tailRescanHeights currentHeight (RescanLastBlockCount s)).

(** The heights of the unscanned records, each once: the keys of
    [blockMap].  Go leaves the order in which they are visited open. *)
Definition rescanHeights (l : list UnscanRecord) : list Z :=
  remove_dups (map ur_BlockHeight l).

Definition rescanOne (s : State) (height : Z) : State :=
  if height =? 0 then s
  else
    match GetBlockByHeight height with
    | Err _ => s
    | Ok block =>
        match BatchExtractTransaction height (Hash block) s with
        | (s, Some _) => s
        | (s, None) => DeleteUnscanRecord height s
        end
    end.

Definition RescanFailedRecord (s : State) : State :=
  let list := GetUnscanRecords s in
  let s := foldl rescanOne s (rescanHeights list) in
  DeleteUnscanRecordNotFindTX s.

(** [ScanBlockTask]; [None] when the loop does not end within [fuel]
    iterations. *)
Definition ScanBlockTask (fuel : nat) (s : State) : option State :=
  match GetScannedBlockHeader s with
  | Err _ => Some s
  | Ok blockHeader =>
      match scanLoop fuel (mkLoop (bh_Height blockHeader) (bh_Hash blockHeader) s) with
      | OutOfFuel _ => None
      | Returned s => Some s
      | Broke l =>
          let s := tailRescan (currentHeight l) (loopState l) in
          Some (RescanFailedRecord s)
      end
  end.

End Scanner.

(** ** Reading record sets *)

(** The amounts of the input-side and of the output-side entries of a
    record set, in order. *)
Definition inputAmounts (d : TxExtractData) : list string :=
  map (fun i => r_Amount (in_Recharge i)) (TxInputs d).
Definition outputAmounts (d : TxExtractData) : list string :=
  map (fun o => r_Amount (out_Recharge o)) (TxOutputs d).

(** The addresses debited and credited. *)
Definition inputAddresses (d : TxExtractData) : list string :=
  map (fun i => r_Address (in_Recharge i)) (TxInputs d).
Definition outputAddresses (d : TxExtractData) : list string :=
  map (fun o => r_Address (out_Recharge o)) (TxOutputs d).

(** The identifiers of a record set: the transaction's WxID, the Sids of
    its inputs, the Sids of its outputs. *)
Definition TxExtractData_ids (d : TxExtractData) : string * list string * list string :=
  (ow_WxID (Transaction_ d),
   map (fun i => r_Sid (in_Recharge i)) (TxInputs d),
   map (fun o => r_Sid (out_Recharge o)) (TxOutputs d)).

(** The identifiers of everything an extraction result holds, by key. *)
Definition result_ids (r : ExtractResult)
    : gmap string (list (string * list string * list string)) :=
  map TxExtractData_ids <$> extractData r.

(** The amount string of [v] minor units of an asset with [decimals]
    decimal places. *)
Definition amountString (v decimals : Z) : string :=
  decimal.String_ (common.BigIntToDecimals v decimals).

(** ** A small world to run the scanner in *)
Module Sample.

(** Stand-ins for openwallet's digests that keep their arguments
    readable. *)
Definition inputSID (txid symbol contractId : string) (n : Z) : string :=
  "input_" +:+ txid +:+ "_" +:+ symbol +:+ "_" +:+ contractId +:+ "_"
    +:+ decimal.natString n.
Definition outputSID (txid symbol contractId : string) (n : Z) : string :=
  "output_" +:+ txid +:+ "_" +:+ symbol +:+ "_" +:+ contractId +:+ "_"
    +:+ decimal.natString n.
Definition wxID (t : openwallet.Transaction) : string :=
  "tx_" +:+ ow_TxID t +:+ "_" +:+ Coin_Symbol (ow_Coin t) +:+ "_"
    +:+ Coin_ContractID (ow_Coin t).

(** A transfer of 1000 minor units with a fee of 10. *)
Definition transfer : Transaction :=
  mkTrx "tx1" 7 "m7" "alice" "bob" 1000 10 1700000000.

(** Resolvers: every address belongs to one account; alice and everybody
    else belong to two different accounts. *)
Definition oneAccount : BlockScanTargetFunc := fun _ => ("acct", true).
Definition twoAccounts : BlockScanTargetFunc :=
  fun t => if String.eqb (Address t) "alice" then ("acctA", true) else ("acctB", true).

(** The chain the wallet client reports: block h has hash m<h>. *)
Definition mainHash (h : Z) : string := "m" +:+ decimal.natString h.
Definition mainBlock (h : Z) : Block := mkBlock h (mainHash h) (mainHash (h - 1)).
Definition mainChain : Z -> result Block := fun h => Ok (mainBlock h).
Definition walletAt (tip : Z) : result WalletStatus :=
  Ok (mkWalletStatus tip (mainHash tip) (mainHash (tip - 1))).

(** A wallet client that cannot deliver block [h0]. *)
Definition blockDown (h0 : Z) : Z -> result Block :=
  fun h => if h =? h0 then Err (ErrOther "timeout") else mainChain h.

Definition noTransactions : Z -> result (list Transaction) := fun _ => Ok [].
Definition oneTransfer : Z -> result (list Transaction) := fun _ => Ok [transfer].
Definition listingDown : Z -> result (list Transaction) :=
  fun _ => Err (ErrOther "rpc down").

(** A branch that has been abandoned: block h has hash s<h>. *)
Definition staleBlock (h : Z) : Block :=
  mkBlock h ("s" +:+ decimal.natString h) ("s" +:+ decimal.natString (h - 1)).
Definition staleStore : gmap Z Block :=
  list_to_map [(1, staleBlock 1); (2, staleBlock 2); (3, staleBlock 3);
               (4, staleBlock 4)].

(** A scanner that followed the abandoned branch up to height 4, and one
    that followed the main chain up to height 4. *)
Definition staleState : State := mkState true 0 (4, "s4") staleStore [] [] [].
Definition mainState : State := mkState true 0 (4, "m4") ∅ [] [] [].

Definition listener : Observer := mkObserver (fun _ _ => None).
Definition deaf : Observer := mkObserver (fun _ _ => Some (ErrOther "rejected")).

(** The results reach the consumer last first. *)
Definition lastFirst : list ExtractResult -> list ExtractResult := @rev _.

Definition noCleanup : State -> State := fun s => s.

End Sample.

(** ** Queries and ad-hoc extraction *)
Section Queries.

Variable wm_Symbol : string.
Variable wm_Decimal : Z.
Variable GenTxInputSID : string -> string -> string -> Z -> string.
Variable GenTxOutPutSID : string -> string -> string -> Z -> string.
Variable GenTransactionWxID : openwallet.Transaction -> string.
Variable GetWalletStatus : result WalletStatus.
Variable GetBlockByHeight : Z -> result Block.

(** The wallet manager's [GetTransaction], which is not part of the scanner
    file. *)
Variable wm_GetTransaction : string -> result Transaction.

Definition GetScannedBlockHeight (s : State) : Z :=
  let '(localHeight, _) := GetLocalNewBlock s in
  localHeight.

Definition GetGlobalMaxBlockHeight : Z :=
  match GetBlockHeight GetWalletStatus with
  | Err _ => 0
  | Ok height => height
  end.

Definition ExtractTransactionData (txid : string)
    (scanAddressFunc : BlockScanTargetFunc)
    : result (gmap string (list TxExtractData)) :=
  match wm_GetTransaction txid with
  | Err e => Err e
  | Ok tx =>
      let result :=
        (ExtractTransaction wm_Symbol wm_Decimal GenTxInputSID GenTxOutPutSID
           GenTransactionWxID GetBlockByHeight 0 "" tx scanAddressFunc).1 in
      Ok (extractData result)
  end.

End Queries.

(** ** The arbitration loop [extractRuntime]

    The loop is driven by which case of its [select] fires in each
    iteration: a result arrives from the producer, the quit channel is
    closed, or the worker takes the value at the head of the queue.  The
    third case sends on [activeWorker], which is nil while the queue is
    empty, so it cannot fire then. *)
Inductive selectCase : Type :=
  | FromProducer (pa : ExtractResult)
  | QuitClosed
  | WorkerTook.

(** What the loop has done after a sequence of cases: the values handed to
    the worker, in order, the queue [values], and whether the function has
    returned.  [None] when the sequence asks the worker case to fire on an
    empty queue. *)
Fixpoint extractRuntime (cases : list selectCase) (values : list ExtractResult)
    : option (list ExtractResult * list ExtractResult * bool) :=
  match cases with
  | [] => Some ([], values, false)
  | FromProducer pa :: cases => extractRuntime cases (values ++ [pa])
  | QuitClosed :: _ => Some ([], values, true)
  | WorkerTook :: cases =>
      match values with
      | [] => None
      | activeValue :: values =>
          match extractRuntime cases values with
          | Some (handed, values, returned) =>
              Some (activeValue :: handed, values, returned)
          | None => None
          end
      end
  end.

(** The results received from the producer before the function returns. *)
Fixpoint producedBeforeQuit (cases : list selectCase) : list ExtractResult :=
  match cases with
  | [] => []
  | FromProducer pa :: cases => pa :: producedBeforeQuit cases
  | QuitClosed :: _ => []
  | WorkerTook :: cases => producedBeforeQuit cases
  end.

(** ** Reading states *)

(** The record a failed delivery leaves behind. *)
Definition notifyFailed (height : Z) : UnscanRecord :=
  NewUnscanRecord height "" "ExtractData Notify failed.".

(** [s] with [records] appended to the unscanned records and [notes] to the
    log of data deliveries, and nothing else changed. *)
Definition withQueues (records : list UnscanRecord)
    (notes : list (nat * string * TxExtractData)) (s : State) : State :=
  mkState (Scanning s) (RescanLastBlockCount s) (localNewBlock s) (localBlocks s)
    (unscanRecords s ++ records) (blockNotified s) (dataNotified s ++ notes).

(** The deliveries [newExtractDataNotify] makes: every observer, with its
    index, is offered every record set of every key. *)
Definition deliveries (Observers : list Observer)
    (extractData : gmap string (list TxExtractData))
    : list (nat * Observer * string * TxExtractData) :=
  flat_map (fun o : nat * Observer =>
    flat_map (fun kv : string * list TxExtractData =>
      map (fun data => (o.1, o.2, kv.1, data)) kv.2)
      (map_to_list extractData))
    (imap (fun i o => (i, o)) Observers).

(** Whether the observer turns a delivery down. *)
Definition rejected (x : nat * Observer * string * TxExtractData) : bool :=
  match BlockExtractDataNotify x.1.1.2 x.1.2 x.2 with
  | Some _ => true
  | None => false
  end.

(** The log entry of a delivery. *)
Definition deliveryNote (x : nat * Observer * string * TxExtractData)
    : nat * string * TxExtractData :=
  (x.1.1.1, x.1.2, x.2).

(** The number of record sets an extraction result holds. *)
Definition recordSets (extractData : gmap string (list TxExtractData)) : nat :=
  length (flat_map snd (map_to_list extractData)).

(** The headers every observer is sent for the blocks of [chain] at the
    given heights, in order. *)
Definition blockHeaders (wm_Symbol : string) (Observers : list Observer)
    (chain : Z -> Block) (isFork : bool) (heights : list Z)
    : list (nat * BlockHeader) :=
  flat_map (fun h =>
    map (fun o => (o, BlockHeader_set_Fork (Block_BlockHeader (chain h) wm_Symbol) isFork))
      (seq 0 (length Observers))) heights.

(** The unscanned records of one height, in queue order. *)
Definition recordsAt (height : Z) (s : State) : list UnscanRecord :=
  filter (fun r => ur_BlockHeight r = height) (unscanRecords s).

(** ** More of the small world *)
Module Sample2.

(** Resolvers that know nobody, and that put everybody under the empty
    key. *)
Definition stranger : BlockScanTargetFunc := fun _ => ("", false).
Definition emptyKey : BlockScanTargetFunc := fun _ => ("", true).

(** A wallet manager that knows every transaction as the sample
    transfer. *)
Definition anyTransfer : string -> result Transaction :=
  fun _ => Ok Sample.transfer.

(** A scanner on the main chain at height 4 with three records queued: one
    for height 5, one for height 0 and one for height 7. *)
Definition queued : State :=
  mkState true 0 (4, "m4") ∅
    [NewUnscanRecord 5 "" "timeout"; NewUnscanRecord 0 "" "unconfirmed";
     NewUnscanRecord 7 "" "timeout"]
    [] [].

(** Two results for the arbitration loop. *)
Definition first : ExtractResult := mkExtractResult ∅ "tx1" 5 true.
Definition second : ExtractResult := mkExtractResult ∅ "tx2" 5 true.

End Sample2.

(** * Properties *)

Lemma wrap64_small (z : Z) : 0 <= z < two64 -> wrap64 z = z.
Proof. intros H. unfold wrap64. apply Z.mod_small. exact H. Qed.

Lemma length_pos_nonempty (s : string) :
  (0 <? String.length s)%nat = true <-> s ≠ "".
Proof.
  destruct s as [|c s]; simpl; split; intros H; try done.
Qed.

(** ** Extraction engine *)
Section ExtractionFacts.

Variable wm_Symbol : string.
Variable wm_Decimal : Z.
Variable GenTxInputSID : string -> string -> string -> Z -> string.
Variable GenTxOutPutSID : string -> string -> string -> Z -> string.
Variable GenTransactionWxID : openwallet.Transaction -> string.
Variable GetBlockByHeight : Z -> result Block.

Local Abbreviation extractTxInput := (extractTxInput wm_Symbol wm_Decimal GenTxInputSID).
Local Abbreviation extractTxOutput := (extractTxOutput wm_Symbol wm_Decimal GenTxOutPutSID).
Local Abbreviation newTransx := (newTransx wm_Symbol wm_Decimal GenTransactionWxID).
Local Abbreviation initTxExtractData :=
  (initTxExtractData wm_Symbol wm_Decimal GenTxInputSID GenTxOutPutSID
     GenTransactionWxID).
Local Abbreviation InitExtractResult :=
  (InitExtractResult wm_Symbol wm_Decimal GenTxInputSID GenTxOutPutSID
     GenTransactionWxID).
Local Abbreviation stampTransaction := (stampTransaction GetBlockByHeight).
Local Abbreviation ExtractTransaction :=
  (ExtractTransaction wm_Symbol wm_Decimal GenTxInputSID GenTxOutPutSID
     GenTransactionWxID GetBlockByHeight).

(** [extractTxInput] appends two entries and leaves the outputs alone. *)
Lemma extractTxInput_amounts tx d :
  inputAmounts (extractTxInput tx d)
    = inputAmounts d
        ++ [amountString (trx_Value tx) wm_Decimal; amountString (trx_Fee tx) wm_Decimal]
  /\ outputAmounts (extractTxInput tx d) = outputAmounts d.
Proof.
  unfold inputAmounts, outputAmounts, extractTxInput. simpl.
  rewrite <- app_assoc, map_app. done.
Qed.

(** [extractTxOutput] appends one entry and leaves the inputs alone. *)
Lemma extractTxOutput_amounts tx d :
  outputAmounts (extractTxOutput tx d)
    = outputAmounts d ++ [amountString (trx_Value tx) wm_Decimal]
  /\ inputAmounts (extractTxOutput tx d) = inputAmounts d.
Proof.
  unfold inputAmounts, outputAmounts, extractTxOutput. simpl.
  rewrite map_app. done.
Qed.

Lemma initTxExtractData_amounts tx :
  let v := amountString (trx_Value tx) wm_Decimal in
  let f := amountString (trx_Fee tx) wm_Decimal in
  (inputAmounts (initTxExtractData tx 0) = [v; f]
   /\ outputAmounts (initTxExtractData tx 0) = [v])
  /\ (inputAmounts (initTxExtractData tx 1) = [v; f]
      /\ outputAmounts (initTxExtractData tx 1) = [])
  /\ (inputAmounts (initTxExtractData tx 2) = []
      /\ outputAmounts (initTxExtractData tx 2) = [v]).
Proof. cbv zeta. repeat split; reflexivity. Qed.

(** What [ExtractTransaction] does once the two addresses are resolved. *)
Lemma ExtractTransaction_unfold blockHeight blockHash trx f :
  let trx' := stampTransaction blockHeight blockHash trx in
  let a1 := f (mkScanTarget (trx_Sender trx) BalanceModelTypeAddress) in
  let a2 := f (mkScanTarget (trx_Receiver trx) BalanceModelTypeAddress) in
  let r0 := mkExtractResult ∅ (trx_TxID trx) blockHeight false in
  ExtractTransaction blockHeight blockHash trx f
  = (ExtractResult_set_Success
       (if bool_decide (a1.1 = a2.1)
           && (0 <? String.length a1.1)%nat && (0 <? String.length a2.1)%nat
        then InitExtractResult trx' a1.1 r0 0
        else
          let r := if a1.2 then InitExtractResult trx' a1.1 r0 1 else r0 in
          if a2.2 then InitExtractResult trx' a2.1 r 2 else r)
       true,
     trx').
Proof.
  cbv zeta. unfold ExtractTransaction.
  replace (trx_Sender (stampTransaction blockHeight blockHash trx))
    with (trx_Sender trx)
    by (unfold stampTransaction; destruct (String.length blockHash =? 0)%nat;
        [destruct (GetBlockByHeight _)|]; reflexivity).
  replace (trx_Receiver (stampTransaction blockHeight blockHash trx))
    with (trx_Receiver trx)
    by (unfold stampTransaction; destruct (String.length blockHash =? 0)%nat;
        [destruct (GetBlockByHeight _)|]; reflexivity).
  destruct (f (mkScanTarget (trx_Sender trx) _)) as [k1 ok1].
  destruct (f (mkScanTarget (trx_Receiver trx) _)) as [k2 ok2].
  reflexivity.
Qed.

Lemma extractData_set_Success r b :
  extractData (ExtractResult_set_Success r b) = extractData r.
Proof. reflexivity. Qed.

Lemma InitExtractResult_fresh tx key operate id h ok :
  extractData (InitExtractResult tx key (mkExtractResult ∅ id h ok) operate)
  = {[ key := [initTxExtractData tx operate] ]}.
Proof.
  unfold InitExtractResult. simpl. rewrite lookup_empty. simpl.
  apply insert_empty.
Qed.

Lemma InitExtractResult_lookup tx key operate r :
  extractData (InitExtractResult tx key r operate) !! key
  = Some (default [] (extractData r !! key) ++ [initTxExtractData tx operate]).
Proof.
  unfold InitExtractResult. simpl. rewrite lookup_insert_eq.
  destruct (extractData r !! key); reflexivity.
Qed.

Lemma InitExtractResult_lookup_ne tx key key' operate r :
  key ≠ key' ->
  extractData (InitExtractResult tx key r operate) !! key' = extractData r !! key'.
Proof.
  intros Hne. unfold InitExtractResult. simpl. by rewrite lookup_insert_ne.
Qed.

(** C6. The record set built for a transaction whose input side is
    extracted (operate 0 or 1) has exactly two input entries, both on the
    sender's address: the first carries the transfer value, whole, and the
    second the fee.  The record set built for a transaction whose output
    side is extracted (operate 0 or 2) has exactly one output entry, on the
    receiver's address, carrying the transfer value.  [extractTxInput]
    always appends those two entries and [extractTxOutput] that one. *)
Theorem record_set_entries (tx : Transaction) :
  let v := amountString (trx_Value tx) wm_Decimal in
  let f := amountString (trx_Fee tx) wm_Decimal in
  (forall d, inputAmounts (extractTxInput tx d) = inputAmounts d ++ [v; f]
             /\ outputAmounts (extractTxInput tx d) = outputAmounts d)
  /\ (forall d, outputAmounts (extractTxOutput tx d) = outputAmounts d ++ [v]
                /\ inputAmounts (extractTxOutput tx d) = inputAmounts d)
  /\ (inputAmounts (initTxExtractData tx 0) = [v; f]
      /\ inputAddresses (initTxExtractData tx 0) = [trx_Sender tx; trx_Sender tx]
      /\ outputAmounts (initTxExtractData tx 0) = [v]
      /\ outputAddresses (initTxExtractData tx 0) = [trx_Receiver tx])
  /\ (inputAmounts (initTxExtractData tx 1) = [v; f]
      /\ inputAddresses (initTxExtractData tx 1) = [trx_Sender tx; trx_Sender tx]
      /\ outputAmounts (initTxExtractData tx 1) = [])
  /\ (inputAmounts (initTxExtractData tx 2) = []
      /\ outputAmounts (initTxExtractData tx 2) = [v]
      /\ outputAddresses (initTxExtractData tx 2) = [trx_Receiver tx]).
Proof.
  cbv zeta. split; [|split].
  - intros d. apply extractTxInput_amounts.
  - intros d. apply extractTxOutput_amounts.
  - repeat split; reflexivity.
Qed.

(** C4. When the resolver gives the sender's address and the receiver's
    address the same non-empty key, the result holds exactly one record set,
    under that key, and this record set has both sides: the two input
    entries and the one output entry. *)
Theorem same_key_one_combined_set
    (blockHeight : Z) (blockHash : string) (trx : Transaction)
    (f : BlockScanTargetFunc) (key : string) (ok1 ok2 : bool) :
  f (mkScanTarget (trx_Sender trx) BalanceModelTypeAddress) = (key, ok1) ->
  f (mkScanTarget (trx_Receiver trx) BalanceModelTypeAddress) = (key, ok2) ->
  key ≠ "" ->
  let d := initTxExtractData (stampTransaction blockHeight blockHash trx) 0 in
  extractData (ExtractTransaction blockHeight blockHash trx f).1 = {[ key := [d] ]}
  /\ length (TxInputs d) = 2%nat
  /\ length (TxOutputs d) = 1%nat.
Proof.
  intros H1 H2 Hkey. cbv zeta.
  rewrite ExtractTransaction_unfold. cbv zeta. rewrite H1, H2.
  cbn [fst snd]. rewrite extractData_set_Success.
  rewrite bool_decide_eq_true_2 by reflexivity.
  apply length_pos_nonempty in Hkey. rewrite Hkey. cbn [andb].
  split; [apply InitExtractResult_fresh | split; reflexivity].
Qed.

(** C5. When the resolver gives the two addresses different keys, the
    sender's key holds one input-only record set exactly when the sender
    matched, the receiver's key holds one output-only record set exactly
    when the receiver matched, no other key holds anything, and the value
    entry of the input side carries the same amount as the entry of the
    output side. *)
Theorem different_keys_independent_sets
    (blockHeight : Z) (blockHash : string) (trx : Transaction)
    (f : BlockScanTargetFunc) (k1 k2 : string) (ok1 ok2 : bool) :
  f (mkScanTarget (trx_Sender trx) BalanceModelTypeAddress) = (k1, ok1) ->
  f (mkScanTarget (trx_Receiver trx) BalanceModelTypeAddress) = (k2, ok2) ->
  k1 ≠ k2 ->
  let r := (ExtractTransaction blockHeight blockHash trx f).1 in
  let din := initTxExtractData (stampTransaction blockHeight blockHash trx) 1 in
  let dout := initTxExtractData (stampTransaction blockHeight blockHash trx) 2 in
  extractData r !! k1 = (if ok1 then Some [din] else None)
  /\ extractData r !! k2 = (if ok2 then Some [dout] else None)
  /\ (forall k, k ≠ k1 -> k ≠ k2 -> extractData r !! k = None)
  /\ (length (TxInputs din) = 2%nat /\ TxOutputs din = [])
  /\ (TxInputs dout = [] /\ length (TxOutputs dout) = 1%nat)
  /\ head (inputAmounts din) = Some (amountString (trx_Value trx) wm_Decimal)
  /\ head (outputAmounts dout) = head (inputAmounts din).
Proof.
  intros H1 H2 Hne. cbv zeta.
  rewrite ExtractTransaction_unfold. cbv zeta. rewrite H1, H2.
  cbn [fst snd]. rewrite extractData_set_Success.
  rewrite bool_decide_eq_false_2 by exact Hne. cbn [andb].
  split; [|split; [|split; [|split; [|split; [|split]]]]].
  - destruct ok1, ok2.
    + rewrite InitExtractResult_lookup_ne by congruence.
      rewrite InitExtractResult_lookup. reflexivity.
    + rewrite InitExtractResult_lookup. reflexivity.
    + rewrite InitExtractResult_lookup_ne by congruence. reflexivity.
    + reflexivity.
  - destruct ok1, ok2.
    + rewrite InitExtractResult_lookup.
      rewrite InitExtractResult_lookup_ne by congruence. reflexivity.
    + rewrite InitExtractResult_lookup_ne by congruence. reflexivity.
    + rewrite InitExtractResult_lookup. reflexivity.
    + reflexivity.
  - intros k Hk1 Hk2. destruct ok1, ok2;
      rewrite ?InitExtractResult_lookup_ne by congruence; reflexivity.
  - split; reflexivity.
  - split; reflexivity.
  - unfold stampTransaction.
    destruct (String.length blockHash =? 0)%nat;
      [destruct (GetBlockByHeight _)|]; reflexivity.
  - reflexivity.
Qed.

(** *** Identifiers *)

Lemma stampTransaction_fields blockHeight blockHash trx :
  let trx' := stampTransaction blockHeight blockHash trx in
  trx_TxID trx' = trx_TxID trx
  /\ trx_Sender trx' = trx_Sender trx
  /\ trx_Receiver trx' = trx_Receiver trx.
Proof.
  cbv zeta. unfold stampTransaction.
  destruct (String.length blockHash =? 0)%nat;
    [destruct (GetBlockByHeight _)|]; done.
Qed.

(** The identifiers of a record set are the generators applied to the
    transaction's txID, the asset symbol, the empty contract identifier and
    index 0. *)
Lemma initTxExtractData_ids tx operate :
  Forall (fun i => r_Sid (in_Recharge i)
                   = GenTxInputSID (trx_TxID tx) wm_Symbol "" 0)
    (TxInputs (initTxExtractData tx operate))
  /\ Forall (fun o => r_Sid (out_Recharge o)
                      = GenTxOutPutSID (trx_TxID tx) wm_Symbol "" 0)
       (TxOutputs (initTxExtractData tx operate))
  /\ exists t, ow_WxID (Transaction_ (initTxExtractData tx operate))
               = GenTransactionWxID t
               /\ ow_TxID t = trx_TxID tx
               /\ ow_Coin t = mkCoin wm_Symbol false "".
Proof.
  unfold initTxExtractData.
  destruct (operate =? 0); [|destruct (operate =? 1); [|destruct (operate =? 2)]];
    (split; [|split];
     [ simpl; repeat constructor
     | simpl; repeat constructor
     | eexists; split; [reflexivity | split; reflexivity] ]).
Qed.

Section WxID.

(** openwallet computes the WxID of a transaction from its txID and its
  coin (symbol and contract identifier) alone. *)
Hypothesis GenTransactionWxID_fields : forall t1 t2 : openwallet.Transaction,
ow_TxID t1 = ow_TxID t2 -> ow_Coin t1 = ow_Coin t2 ->
GenTransactionWxID t1 = GenTransactionWxID t2.

Lemma initTxExtractData_ids_congr t1 t2 operate :
trx_TxID t1 = trx_TxID t2 ->
TxExtractData_ids (initTxExtractData t1 operate)
= TxExtractData_ids (initTxExtractData t2 operate).
Proof.
intros Hid. unfold initTxExtractData, TxExtractData_ids.
destruct (operate =? 0); [|destruct (operate =? 1); [|destruct (operate =? 2)]];
  simpl; rewrite Hid;
  match goal with
  | |- (GenTransactionWxID ?x, _, _) = (GenTransactionWxID ?y, _, _) =>
      rewrite (GenTransactionWxID_fields x y) by (simpl; congruence)
  end; reflexivity.
Qed.

Lemma InitExtractResult_ids_congr t1 t2 key r1 r2 operate :
trx_TxID t1 = trx_TxID t2 ->
result_ids r1 = result_ids r2 ->
result_ids (InitExtractResult t1 key r1 operate)
= result_ids (InitExtractResult t2 key r2 operate).
Proof.
intros Hid Hr. unfold result_ids in *. unfold InitExtractResult. simpl.
rewrite !fmap_insert, !map_app. simpl.
rewrite (initTxExtractData_ids_congr t1 t2 operate Hid), Hr.
f_equal. f_equal.
assert (Hk : (map TxExtractData_ids <$> extractData r1) !! key
             = (map TxExtractData_ids <$> extractData r2) !! key)
  by (rewrite Hr; reflexivity).
rewrite !lookup_fmap in Hk.
destruct (extractData r1 !! key), (extractData r2 !! key);
  simpl in Hk; congruence.
Qed.

(** Two extractions with the same resolver agree on all identifiers as soon
  as the transactions agree on txID, sender and receiver, whatever the
  block height and hash they are stamped with. *)
Lemma ExtractTransaction_ids_congr h1 bh1 t1 h2 bh2 t2 f :
trx_TxID t1 = trx_TxID t2 ->
trx_Sender t1 = trx_Sender t2 ->
trx_Receiver t1 = trx_Receiver t2 ->
result_ids (ExtractTransaction h1 bh1 t1 f).1
= result_ids (ExtractTransaction h2 bh2 t2 f).1.
Proof.
intros Hid Hs Hr. rewrite !ExtractTransaction_unfold. cbv zeta.
cbn [fst snd]. rewrite Hs, Hr.
destruct (f (mkScanTarget (trx_Sender t2) _)) as [k1 ok1].
destruct (f (mkScanTarget (trx_Receiver t2) _)) as [k2 ok2].
cbn [fst snd].
assert (Hid' : trx_TxID (stampTransaction h1 bh1 t1)
               = trx_TxID (stampTransaction h2 bh2 t2)).
{ destruct (stampTransaction_fields h1 bh1 t1) as [-> _].
  destruct (stampTransaction_fields h2 bh2 t2) as [-> _]. exact Hid. }
assert (H0 : forall a b c d e g,
           result_ids (mkExtractResult ∅ a b c) = result_ids (mkExtractResult ∅ d e g))
  by reflexivity.
change (result_ids (ExtractResult_set_Success ?r true)) with (result_ids r).
destruct (bool_decide (k1 = k2) && _ && _).
- apply InitExtractResult_ids_congr; [exact Hid' | apply H0].
- destruct ok1, ok2; repeat apply InitExtractResult_ids_congr;
    try exact Hid'; apply H0.
Qed.

End WxID.

(** Every record set of a result was built by [InitExtractResult] from the
    stamped transaction. *)
Lemma ExtractTransaction_elems blockHeight blockHash trx f key ds d :
  extractData (ExtractTransaction blockHeight blockHash trx f).1 !! key = Some ds ->
  d ∈ ds ->
  exists operate,
    d = initTxExtractData (stampTransaction blockHeight blockHash trx) operate.
Proof.
  rewrite ExtractTransaction_unfold. cbv zeta. cbn [fst snd].
  rewrite extractData_set_Success.
  set (trx' := stampTransaction blockHeight blockHash trx).
  assert (Hstep : forall r k op,
             (forall key ds d, extractData r !! key = Some ds -> d ∈ ds ->
                exists operate, d = initTxExtractData trx' operate) ->
             forall key ds d,
               extractData (InitExtractResult trx' k r op) !! key = Some ds ->
               d ∈ ds -> exists operate, d = initTxExtractData trx' operate).
  { intros r k op IH key' ds' d' Hl Hin.
    destruct (decide (k = key')) as [-> | Hne].
    - rewrite InitExtractResult_lookup in Hl. injection Hl as <-.
      apply elem_of_app in Hin as [Hin | Hin].
      + destruct (extractData r !! key') as [a|] eqn:E; simpl in Hin.
        * eapply IH; eauto.
        * by apply elem_of_nil in Hin.
      + apply list_elem_of_singleton in Hin. eauto.
    - rewrite InitExtractResult_lookup_ne in Hl by exact Hne. eapply IH; eauto. }
  assert (H0 : forall key ds d,
             extractData (mkExtractResult ∅ (trx_TxID trx) blockHeight false) !! key
             = Some ds -> d ∈ ds ->
             exists operate, d = initTxExtractData trx' operate).
  { intros key' ds' d' Hl. simpl in Hl. by rewrite lookup_empty in Hl. }
  revert key ds d.
  destruct (bool_decide _ && _ && _).
  - apply Hstep, H0.
  - destruct (f _).2, (f _).2; repeat apply Hstep; apply H0.
Qed.

(** C7. Extraction run a second time on the same transaction (as the first
    run left it) with the same arguments and the same resolver yields the
    same identifiers, key by key: the same WxID, input Sids and output Sids.
    Every input Sid is [GenTxInputSID] and every output Sid is
    [GenTxOutPutSID] of the transaction's txID, the asset symbol, the empty
    contract identifier and index 0; every WxID is [GenTransactionWxID] of a
    transaction with that txID and that coin, which is all the generator
    reads. *)
Theorem identifiers_repeatable
    (blockHeight : Z) (blockHash : string) (trx : Transaction)
    (f : BlockScanTargetFunc) :
  (forall t1 t2 : openwallet.Transaction,
      ow_TxID t1 = ow_TxID t2 -> ow_Coin t1 = ow_Coin t2 ->
      GenTransactionWxID t1 = GenTransactionWxID t2) ->
  let run1 := ExtractTransaction blockHeight blockHash trx f in
  let run2 := ExtractTransaction blockHeight blockHash run1.2 f in
  result_ids run2.1 = result_ids run1.1
  /\ forall key ds d,
       extractData run1.1 !! key = Some ds -> d ∈ ds ->
       Forall (fun i => r_Sid (in_Recharge i)
                        = GenTxInputSID (trx_TxID trx) wm_Symbol "" 0) (TxInputs d)
       /\ Forall (fun o => r_Sid (out_Recharge o)
                           = GenTxOutPutSID (trx_TxID trx) wm_Symbol "" 0) (TxOutputs d)
       /\ exists t, ow_WxID (Transaction_ d) = GenTransactionWxID t
                    /\ ow_TxID t = trx_TxID trx
                    /\ ow_Coin t = mkCoin wm_Symbol false "".
Proof.
  intros Hwx. cbv zeta. split.
  - rewrite (ExtractTransaction_unfold blockHeight blockHash trx f) at 1.
    cbv zeta. cbn [snd].
    destruct (stampTransaction_fields blockHeight blockHash trx) as (Hid & Hs & Hr).
    apply ExtractTransaction_ids_congr; assumption.
  - intros key ds d Hl Hin.
    destruct (ExtractTransaction_elems _ _ _ _ _ _ _ Hl Hin) as [operate ->].
    destruct (stampTransaction_fields blockHeight blockHash trx) as (Hid & _).
    rewrite <- Hid. apply initTxExtractData_ids.
Qed.

End ExtractionFacts.

(** ** Tail rescan *)

Lemma heightsBelow_seqZ (n : nat) (i h : Z) :
  0 <= i -> i + Z.of_nat n <= h -> h < two64 ->
  heightsBelow n i h = seqZ i (Z.of_nat n).
Proof.
  revert i. induction n as [|n IH]; intros i Hi Hn Hh.
  - reflexivity.
  - cbn [heightsBelow].
    destruct (i <? h) eqn:E; [|apply Z.ltb_ge in E; lia].
    rewrite wrap64_small by lia.
    rewrite IH by lia.
    replace (Z.of_nat (S n)) with (Z.succ (Z.of_nat n)) by lia.
    rewrite (seqZ_cons i (Z.succ (Z.of_nat n))) by lia. f_equal. f_equal; lia.
Qed.

(** More iterations than [h - i] change nothing: the loop has stopped. *)
Lemma heightsBelow_fuel (n : nat) (i h : Z) :
  0 <= i -> h < two64 -> (Z.to_nat (h - i) <= n)%nat ->
  heightsBelow n i h = heightsBelow (Z.to_nat (h - i)) i h.
Proof.
  revert i. induction n as [|n IH]; intros i Hi Hh Hn.
  - replace (Z.to_nat (h - i)) with O by lia. reflexivity.
  - cbn [heightsBelow]. destruct (i <? h) eqn:E.
    + apply Z.ltb_lt in E.
      replace (Z.to_nat (h - i)) with (S (Z.to_nat (h - (i + 1)))) by lia.
      cbn [heightsBelow]. rewrite (proj2 (Z.ltb_lt i h)) by lia.
      rewrite wrap64_small by lia. f_equal. apply IH; lia.
    + apply Z.ltb_ge in E.
      replace (Z.to_nat (h - i)) with O by lia. reflexivity.
Qed.

(** With a count no larger than the height the tail rescan visits
    [h - c, ..., h - 1]. *)
Lemma tailRescanHeights_in_range (h c : Z) :
  0 <= c <= h -> h < two64 ->
  tailRescanHeights h c = seqZ (h - c) c.
Proof.
  intros Hc Hh. unfold tailRescanHeights, tailRescanStart.
  rewrite wrap64_small by lia.
  rewrite heightsBelow_seqZ by lia. f_equal. lia.
Qed.

(** With a count larger than the height the subtraction wraps around, the
    first value of [i] is above [h], and nothing is visited. *)
Lemma tailRescanHeights_wrapped (h c : Z) :
  0 <= h < c -> c < two64 ->
  tailRescanStart h c = two64 + h - c /\ tailRescanHeights h c = [].
Proof.
  intros Hh Hc.
  assert (Hs : tailRescanStart h c = two64 + h - c).
  { unfold tailRescanStart, wrap64.
    symmetry. apply (Z.mod_unique_pos (h - c) two64 (-1)); lia. }
  split; [exact Hs|].
  unfold tailRescanHeights. rewrite Hs.
  replace (Z.to_nat (h - (two64 + h - c))) with O by lia. reflexivity.
Qed.

(** C8. At final height 5 with [RescanLastBlockCount] 10 the first height
    of the tail rescan is the wrapped difference 2^64 - 5, not a clamped
    lower bound, and no height is rescanned. *)
Theorem tail_rescan_count_above_height :
  tailRescanStart 5 10 = 18446744073709551611
  /\ tailRescanHeights 5 10 = []
  /\ tailRescanHeights 5 3 = [2; 3; 4].
Proof. vm_compute. repeat split; reflexivity. Qed.

(** ** Scanner *)
Section ScannerFacts.

Variable wm_Symbol : string.
Variable wm_Decimal : Z.
Variable GenTxInputSID : string -> string -> string -> Z -> string.
Variable GenTxOutPutSID : string -> string -> string -> Z -> string.
Variable GenTransactionWxID : openwallet.Transaction -> string.
Variable GetWalletStatus : result WalletStatus.
Variable GetBlockByHeight : Z -> result Block.
Variable GetTransactionsByHeight : Z -> result (list Transaction).
Variable Observers : list Observer.
Variable ScanTargetFunc : BlockScanTargetFunc.
Variable schedule : list ExtractResult -> list ExtractResult.

Local Abbreviation ExtractTransaction :=
  (ExtractTransaction wm_Symbol wm_Decimal GenTxInputSID GenTxOutPutSID
     GenTransactionWxID GetBlockByHeight).
Local Abbreviation extractWork :=
  (extractWork wm_Symbol wm_Decimal GenTxInputSID GenTxOutPutSID
     GenTransactionWxID GetBlockByHeight ScanTargetFunc).
Local Abbreviation newExtractDataNotify := (newExtractDataNotify Observers).
Local Abbreviation saveOne := (saveOne Observers).
Local Abbreviation saveWork := (saveWork Observers).
Local Abbreviation BatchExtractTransaction :=
  (BatchExtractTransaction wm_Symbol wm_Decimal GenTxInputSID GenTxOutPutSID
     GenTransactionWxID GetBlockByHeight GetTransactionsByHeight Observers
     ScanTargetFunc schedule).
Local Abbreviation GetBlockHeight := (GetBlockHeight GetWalletStatus).
Local Abbreviation resolveAnchor := (resolveAnchor GetBlockByHeight).
Local Abbreviation forkRecover := (forkRecover wm_Symbol GetBlockByHeight Observers).
Local Abbreviation scanIter :=
  (scanIter wm_Symbol wm_Decimal GenTxInputSID GenTxOutPutSID
     GenTransactionWxID GetWalletStatus GetBlockByHeight GetTransactionsByHeight
     Observers ScanTargetFunc schedule).
Local Abbreviation scanLoop :=
  (scanLoop wm_Symbol wm_Decimal GenTxInputSID GenTxOutPutSID
     GenTransactionWxID GetWalletStatus GetBlockByHeight GetTransactionsByHeight
     Observers ScanTargetFunc schedule).
Local Abbreviation SetRescanBlockHeight := (SetRescanBlockHeight GetBlockByHeight).

(** C10. For height 0 the subtraction wraps to 2^64 - 1, the guard
    [height < 0] does not hold (it holds for no height), and what
    [SetRescanBlockHeight] returns is decided by the block lookup at
    2^64 - 1: the lookup's error, or nil after saving that height.  For
    every height the error returned is the lookup's, so the validation
    error of the guard is never produced. *)
Theorem SetRescanBlockHeight_zero (s : State) :
  wrap64 (0 - 1) = 18446744073709551615
  /\ (forall height, (wrap64 (height - 1) <? 0) = false)
  /\ SetRescanBlockHeight 0 s
     = match GetBlockByHeight 18446744073709551615 with
       | Err e => (s, Some e)
       | Ok block => (SaveLocalNewBlock 18446744073709551615 (Hash block) s, None)
       end
  /\ (forall height,
        (SetRescanBlockHeight height s).2
        = match GetBlockByHeight (wrap64 (height - 1)) with
          | Err e => Some e
          | Ok _ => None
          end).
Proof.
  assert (Hguard : forall height, (wrap64 (height - 1) <? 0) = false).
  { intros height. apply Z.ltb_ge. unfold wrap64.
    apply Z.mod_pos_bound. reflexivity. }
  split; [reflexivity|]. split; [exact Hguard|]. split.
  - unfold SetRescanBlockHeight. rewrite Hguard.
    change (wrap64 (0 - 1)) with 18446744073709551615. reflexivity.
  - intros height. unfold SetRescanBlockHeight. rewrite Hguard.
    destruct (GetBlockByHeight (wrap64 (height - 1))) as [b|e]; reflexivity.
Qed.

(** *** Batch pipeline *)

Lemma ExtractTransaction_Success blockHeight blockHash trx f :
  Success (ExtractTransaction blockHeight blockHash trx f).1 = true.
Proof. rewrite ExtractTransaction_unfold. reflexivity. Qed.

Lemma newExtractDataNotify_nil height m s :
  (newExtractDataNotify height m s).2 = None.
Proof. reflexivity. Qed.

(** Results that are all successful leave the failure counter alone. *)
Lemma saveWork_failed_from height results s c :
  Forall (fun r => Success r = true) results ->
  failed (foldl (saveOne height) (s, c) results).2 = failed c.
Proof.
  intros Hall. revert s c.
  induction Hall as [|r results Hr _ IH]; intros s c.
  - reflexivity.
  - cbn [foldl]. unfold saveOne at 2. rewrite Hr.
    destruct (newExtractDataNotify height (extractData r) s) as [s' notifyErr] eqn:E.
    assert (notifyErr = None) as ->
      by (change notifyErr with (s', notifyErr).2; rewrite <- E; reflexivity).
    rewrite IH. reflexivity.
Qed.

Lemma extractWork_Success blockHeight blockHash txs :
  Forall (fun r => Success r = true) (extractWork blockHeight blockHash txs).
Proof.
  unfold extractWork. apply Forall_forall. intros r Hin.
  apply list_elem_of_In, in_map_iff in Hin as (tx & <- & _).
  apply ExtractTransaction_Success.
Qed.

(** C9. Whatever the order in which the results of a block reach the
    consumer: every result of [ExtractTransaction] has [Success] set,
    [newExtractDataNotify] returns nil on every input and with any
    observers, the failure counter of [saveWork] stays at 0, and an error
    returned by [BatchExtractTransaction] is the error of the transaction
    listing, never the aggregate save-work error. *)
Theorem BatchExtractTransaction_error_source
    (blockHeight : Z) (blockHash : string) (s : State) :
  (forall l, schedule l ≡ₚ l) ->
  (forall h bh trx f, Success (ExtractTransaction h bh trx f).1 = true)
  /\ (forall h m s', (newExtractDataNotify h m s').2 = None)
  /\ (forall txs,
        failed (saveWork blockHeight
                  (schedule (extractWork blockHeight blockHash txs)) s).2 = 0)
  /\ (forall e,
        (BatchExtractTransaction blockHeight blockHash s).2 = Some e ->
        GetTransactionsByHeight blockHeight = Err e).
Proof.
  intros Hperm.
  assert (Hfailed : forall txs,
             failed (saveWork blockHeight
                       (schedule (extractWork blockHeight blockHash txs)) s).2 = 0).
  { intros txs. unfold saveWork.
    apply (saveWork_failed_from blockHeight _ s (mkCounters 0 0)).
    rewrite (Hperm _). apply extractWork_Success. }
  split; [apply ExtractTransaction_Success|].
  split; [apply newExtractDataNotify_nil|].
  split; [exact Hfailed|].
  intros e. unfold BatchExtractTransaction.
  destruct (GetTransactionsByHeight blockHeight) as [txs|e'].
  - destruct (length txs =? 0)%nat; [discriminate|].
    specialize (Hfailed txs).
    destruct (saveWork _ _ s) as [s' c]. simpl in Hfailed.
    rewrite Hfailed. discriminate.
  - simpl. intros [= ->]. reflexivity.
Qed.

(** *** Scan loop *)

(** The loop body up to the fetch of the next block. *)
Lemma scanIter_fetch (l : LoopState) (maxHeight : Z) :
  Scanning (loopState l) = true ->
  GetBlockHeight = Ok maxHeight ->
  currentHeight l < maxHeight ->
  let s := loopState l in
  let H := wrap64 (currentHeight l + 1) in
  scanIter l
  = match GetBlockByHeight H with
    | Err e =>
        Continue (mkLoop H (currentHash l)
                    (SaveUnscanRecord (NewUnscanRecord H "" (error_Error e)) s))
    | Ok block =>
        if negb (bool_decide (currentHash l = PrevBlockHash block)) then
          forkRecover H (currentHash l) s
        else
          match BatchExtractTransaction (Height block) (Hash block) s with
          | (s, Some _) => Return s
          | (s, None) =>
              Continue (mkLoop H (Hash block)
                          (newBlockNotify wm_Symbol Observers block false
                             (SaveLocalBlock block
                                (SaveLocalNewBlock H (Hash block) s))))
          end
    end.
Proof.
  intros Hscan Hmax Hlt. cbv zeta. unfold scanIter.
  rewrite Hscan. cbn [negb]. rewrite Hmax.
  rewrite (proj2 (Z.leb_gt maxHeight (currentHeight l))) by exact Hlt.
  reflexivity.
Qed.

(** C2 (as amended). While the scanner is running below the chain's
    height: when the fetch of the next block fails, an unscanned record
    for that height with an empty txID and the error's text is persisted,
    the cursor stays where it was, and the loop goes on with its next
    iteration from that height; when the block is fetched, continues the
    local chain, and the fetch of its transaction list fails, the cursor
    stays where it was. *)
Theorem fetch_failure_not_advancing (l : LoopState) (maxHeight : Z) :
  Scanning (loopState l) = true ->
  GetBlockHeight = Ok maxHeight ->
  currentHeight l < maxHeight ->
  let s := loopState l in
  let H := wrap64 (currentHeight l + 1) in
  (forall e, GetBlockByHeight H = Err e ->
     let r := NewUnscanRecord H "" (error_Error e) in
     let l' := mkLoop H (currentHash l) (SaveUnscanRecord r s) in
     scanIter l = Continue l'
     /\ (forall fuel, scanLoop (S fuel) l = scanLoop fuel l')
     /\ unscanRecords (loopState l') = unscanRecords s ++ [r]
     /\ (ur_BlockHeight r = H /\ ur_TxID r = "" /\ ur_Reason r = error_Error e)
     /\ GetLocalNewBlock (loopState l') = GetLocalNewBlock s)
  /\ (forall block e,
        GetBlockByHeight H = Ok block ->
        currentHash l = PrevBlockHash block ->
        GetTransactionsByHeight (Height block) = Err e ->
        GetLocalNewBlock (stateAfter (scanIter l)) = GetLocalNewBlock s).
Proof.
  intros Hscan Hmax Hlt. cbv zeta.
  pose proof (scanIter_fetch l maxHeight Hscan Hmax Hlt) as Hiter.
  cbv zeta in Hiter. split.
  - intros e He. rewrite He in Hiter.
    split; [exact Hiter|]. split; [|repeat split].
    intros fuel. cbn [scanLoop]. rewrite Hiter. reflexivity.
  - intros block e Hb Hprev Htx. rewrite Hb in Hiter.
    rewrite bool_decide_eq_true_2 in Hiter by exact Hprev. cbn [negb] in Hiter.
    rewrite Hiter. unfold BatchExtractTransaction. rewrite Htx. reflexivity.
Qed.

Lemma resolveAnchor_DeleteUnscanRecord height k s :
  resolveAnchor height (DeleteUnscanRecord k s) = resolveAnchor height s.
Proof. reflexivity. Qed.

(** C1 (as amended). When the block fetched at height H >= 2 does not
    continue the local chain and the block at the rewound height
    r = max (H - 2) 1 is found (in the local store, or else by the wallet
    client) with that height, the loop goes on from r: the persisted cursor
    is (r, hash of that block), that is (H - 2, hash-of-H-2) for H >= 3 and
    (1, hash-of-1) for H = 2, and each observer is sent exactly one
    fork-flagged header, of the local copy of block H - 1, if the store has
    such a copy, and nothing otherwise. *)
Theorem fork_recovery_cursor (l : LoopState) (maxHeight : Z) (block anchor : Block) :
  let s := loopState l in
  let H := currentHeight l + 1 in
  let r := Z.max (H - 2) 1 in
  Scanning s = true ->
  GetBlockHeight = Ok maxHeight ->
  currentHeight l < maxHeight ->
  2 <= H < two64 ->
  GetBlockByHeight H = Ok block ->
  currentHash l <> PrevBlockHash block ->
  resolveAnchor r s = Ok anchor ->
  Height anchor = r ->
  exists l',
    scanIter l = Continue l'
    /\ currentHeight l' = r
    /\ currentHash l' = Hash anchor
    /\ GetLocalNewBlock (loopState l') = (r, Hash anchor)
    /\ blockNotified (loopState l') = blockNotified s ++ forkNotifications wm_Symbol Observers H s
    /\ (H = 2 -> r = 1) /\ (3 <= H -> r = H - 2).
Proof.
  cbv zeta. intros Hscan Hmax Hlt HH Hb Hne Hanchor Hheight.
  pose proof (scanIter_fetch l maxHeight Hscan Hmax Hlt) as Hiter.
  cbv zeta in Hiter. rewrite wrap64_small in Hiter by lia.
  rewrite Hb in Hiter.
  rewrite bool_decide_eq_false_2 in Hiter by exact Hne. cbn [negb] in Hiter.
  unfold forkRecover in Hiter.
  rewrite !wrap64_small in Hiter by lia.
  replace (if currentHeight l + 1 - 2 <=? 0 then 1 else currentHeight l + 1 - 2)
    with (Z.max (currentHeight l + 1 - 2) 1) in Hiter
    by (destruct (currentHeight l + 1 - 2 <=? 0) eqn:E;
        [apply Z.leb_le in E | apply Z.leb_gt in E]; lia).
  rewrite resolveAnchor_DeleteUnscanRecord in Hiter.
  rewrite Hanchor in Hiter.
  unfold GetLocalBlock in Hiter. unfold forkNotifications.
  destruct (localBlocks (loopState l) !! (currentHeight l + 1 - 1)) as [forkBlock|];
    eexists; (split; [exact Hiter|]);
    cbn [currentHeight currentHash loopState];
    (split; [reflexivity|]); (split; [reflexivity|]);
    (split; [rewrite Hheight; reflexivity|]);
    (split; [|lia]).
  - reflexivity.
  - cbn. rewrite app_nil_r. reflexivity.
Qed.

End ScannerFacts.

(** ** Amounts at eight decimals *)

(** C3 (as amended). With eight decimal places, a transfer of value 1000
    and fee 10 gives an input side of two entries with the amounts
    "0.00001" and "0.0000001" and an output side of one entry with the
    amount "0.00001": the amount strings carry no trailing zeros. *)
Theorem amounts_value_1000_fee_10
    (wm_Symbol : string)
    (GenTxInputSID GenTxOutPutSID : string -> string -> string -> Z -> string)
    (GenTransactionWxID : openwallet.Transaction -> string)
    (tx : Transaction) :
  trx_Value tx = 1000 ->
  trx_Fee tx = 10 ->
  let build :=
    initTxExtractData wm_Symbol 8 GenTxInputSID GenTxOutPutSID GenTransactionWxID tx in
  (inputAmounts (build 0) = ["0.00001"; "0.0000001"]
   /\ outputAmounts (build 0) = ["0.00001"])
  /\ (inputAmounts (build 1) = ["0.00001"; "0.0000001"]
      /\ outputAmounts (build 1) = [])
  /\ (inputAmounts (build 2) = []
      /\ outputAmounts (build 2) = ["0.00001"]).
Proof.
  intros Hv Hf. cbv zeta.
  pose proof (initTxExtractData_amounts wm_Symbol 8 GenTxInputSID GenTxOutPutSID
                GenTransactionWxID tx) as H.
  cbv zeta in H. rewrite Hv, Hf in H.
  change (amountString 1000 8) with "0.00001" in H.
  change (amountString 10 8) with "0.0000001" in H.
  exact H.
Qed.

(** ** The properties at work in the sample world *)

Example decimal_string_1000_8 :
  decimal.String_ (common.BigIntToDecimals 1000 8) = "0.00001".
Proof. vm_compute. reflexivity. Qed.

Example decimal_string_12345_3 :
  decimal.String_ (decimal.mkDecimal (-12345) (-3)) = "-12.345".
Proof. vm_compute. reflexivity. Qed.

Example decimal_string_5_0 :
  decimal.String_ (common.BigIntToDecimals 5 0) = "5".
Proof. vm_compute. reflexivity. Qed.

Example decimal_string_whole :
  decimal.String_ (common.BigIntToDecimals 1234500000000 8) = "12345".
Proof. vm_compute. reflexivity. Qed.

Example decimal_string_fraction :
  decimal.String_ (decimal.mkDecimal 1200 (-3)) = "1.2"
  /\ decimal.String_ (decimal.mkDecimal 0 (-8)) = "0"
  /\ decimal.String_ (decimal.mkDecimal 100000010 (-8)) = "1.0000001".
Proof. vm_compute. repeat split; reflexivity. Qed.

(** A cycle without faults: from the cursor at height 4 to the tip at
    height 6, with both blocks announced and nothing left to retry. *)
Example cycle_to_tip :
  exists s,
    ScanBlockTask "BEAM" 8 Sample.inputSID Sample.outputSID Sample.wxID
      (Sample.walletAt 6) Sample.mainChain Sample.oneTransfer
      [Sample.listener] Sample.twoAccounts Sample.lastFirst Sample.noCleanup
      5 Sample.mainState = Some s
    /\ GetLocalNewBlock s = (6, "m6")
    /\ map (fun n => (bh_Height n.2, bh_Fork n.2)) (blockNotified s)
       = [(5, false); (6, false)]
    /\ unscanRecords s = [].
Proof. eexists. vm_compute. repeat split; reflexivity. Qed.

(** A fork found at height 1: the rewound height 1 - 2 wraps around and is
    not caught by the test [currentHeight <= 0]. *)
Example fork_at_height_one :
  GetLocalNewBlock
    (stateAfter
       (forkRecover "BEAM" Sample.mainChain [Sample.listener] 1 "s0"
          Sample.mainState))
  = (18446744073709551615, "m18446744073709551615").
Proof. vm_compute. reflexivity. Qed.

Lemma sample_amounts_at_eight_decimals :
  inputAmounts
    (initTxExtractData "BEAM" 8 Sample.inputSID Sample.outputSID Sample.wxID
       Sample.transfer 1)
  = ["0.00001"; "0.0000001"].
Proof.
  apply (amounts_value_1000_fee_10 "BEAM" Sample.inputSID Sample.outputSID
           Sample.wxID Sample.transfer); reflexivity.
Defined.

(** The strings with the trailing zeros kept are not what the transfer of
    the sample world yields. *)
Lemma amounts_keep_no_trailing_zeros :
  ~ (inputAmounts
       (initTxExtractData "BEAM" 8 Sample.inputSID Sample.outputSID Sample.wxID
          Sample.transfer 1)
     = ["0.00001000"; "0.00000010"]
     /\ outputAmounts
          (initTxExtractData "BEAM" 8 Sample.inputSID Sample.outputSID Sample.wxID
             Sample.transfer 2)
        = ["0.00001000"]).
Proof. vm_compute. intros [H _]. discriminate H. Qed.

Lemma sample_one_account :
  size (extractData
          (ExtractTransaction "BEAM" 8 Sample.inputSID Sample.outputSID Sample.wxID
             Sample.mainChain 7 "m7" Sample.transfer Sample.oneAccount).1) = 1%nat.
Proof.
  destruct (same_key_one_combined_set "BEAM" 8 Sample.inputSID Sample.outputSID
              Sample.wxID Sample.mainChain 7 "m7" Sample.transfer
              Sample.oneAccount "acct" true true) as [H _];
    [reflexivity | reflexivity | discriminate |].
  rewrite H. apply map_size_singleton.
Defined.

Lemma sample_two_accounts :
  length (TxInputs
            (initTxExtractData "BEAM" 8 Sample.inputSID Sample.outputSID Sample.wxID
               (stampTransaction Sample.mainChain 7 "m7" Sample.transfer) 1)) = 2%nat.
Proof.
  destruct (different_keys_independent_sets "BEAM" 8 Sample.inputSID
              Sample.outputSID Sample.wxID Sample.mainChain 7 "m7" Sample.transfer
              Sample.twoAccounts "acctA" "acctB" true true)
    as (_ & _ & _ & [H _] & _);
    [reflexivity | reflexivity | discriminate |].
  exact H.
Defined.

Lemma sample_rerun_ids :
  result_ids
    (ExtractTransaction "BEAM" 8 Sample.inputSID Sample.outputSID Sample.wxID
       (Sample.blockDown 7) 0 ""
       (ExtractTransaction "BEAM" 8 Sample.inputSID Sample.outputSID Sample.wxID
          (Sample.blockDown 7) 0 "" Sample.transfer Sample.twoAccounts).2
       Sample.twoAccounts).1
  = result_ids
      (ExtractTransaction "BEAM" 8 Sample.inputSID Sample.outputSID Sample.wxID
         (Sample.blockDown 7) 0 "" Sample.transfer Sample.twoAccounts).1.
Proof.
  apply (identifiers_repeatable "BEAM" 8 Sample.inputSID Sample.outputSID
           Sample.wxID (Sample.blockDown 7) 0 "" Sample.transfer Sample.twoAccounts).
  intros t1 t2 Hid Hcoin. unfold Sample.wxID. rewrite Hid, Hcoin. reflexivity.
Defined.

Lemma sample_batch_error :
  failed
    (saveWork [Sample.listener; Sample.deaf] 5
       (Sample.lastFirst
          (extractWork "BEAM" 8 Sample.inputSID Sample.outputSID Sample.wxID
             Sample.mainChain Sample.oneAccount 5 "m5"
             [Sample.transfer; Sample.transfer]))
       Sample.mainState).2 = 0.
Proof.
  destruct (BatchExtractTransaction_error_source "BEAM" 8 Sample.inputSID
              Sample.outputSID Sample.wxID Sample.mainChain Sample.oneTransfer
              [Sample.listener; Sample.deaf] Sample.oneAccount Sample.lastFirst
              5 "m5" Sample.mainState) as (_ & _ & Hfailed & _).
  - intros l. unfold Sample.lastFirst. symmetry. apply Permutation_rev.
  - apply Hfailed.
Defined.

Lemma sample_block_fetch_failure :
  scanIter "BEAM" 8 Sample.inputSID Sample.outputSID Sample.wxID
    (Sample.walletAt 10) (Sample.blockDown 5) Sample.noTransactions
    [Sample.listener] Sample.oneAccount Sample.lastFirst
    (mkLoop 4 "m4" Sample.mainState)
  = Continue
      (mkLoop 5 "m4"
         (SaveUnscanRecord (NewUnscanRecord 5 "" "timeout") Sample.mainState)).
Proof.
  destruct (fetch_failure_not_advancing "BEAM" 8 Sample.inputSID Sample.outputSID
              Sample.wxID (Sample.walletAt 10) (Sample.blockDown 5)
              Sample.noTransactions [Sample.listener] Sample.oneAccount
              Sample.lastFirst (mkLoop 4 "m4" Sample.mainState) 10)
    as [Hblock _]; [reflexivity | reflexivity | reflexivity |].
  destruct (Hblock (ErrOther "timeout")) as [Hiter _]; [reflexivity|].
  exact Hiter.
Defined.

(** A failing transaction listing ends the whole cycle at once: nothing is
    recorded, and the loop does not go on. *)
Lemma listing_failure_returns :
  scanLoop "BEAM" 8 Sample.inputSID Sample.outputSID Sample.wxID
    (Sample.walletAt 10) Sample.mainChain Sample.listingDown
    [Sample.listener] Sample.oneAccount Sample.lastFirst
    3 (mkLoop 4 "m4" Sample.mainState)
  = Returned Sample.mainState
  /\ unscanRecords Sample.mainState = []
  /\ ScanBlockTask "BEAM" 8 Sample.inputSID Sample.outputSID Sample.wxID
       (Sample.walletAt 10) Sample.mainChain Sample.listingDown
       [Sample.listener] Sample.oneAccount Sample.lastFirst Sample.noCleanup
       3 Sample.mainState
     = Some Sample.mainState.
Proof. vm_compute. repeat split; reflexivity. Qed.

Lemma sample_fork_recovery :
  exists l',
    scanIter "BEAM" 8 Sample.inputSID Sample.outputSID Sample.wxID
      (Sample.walletAt 10) Sample.mainChain Sample.noTransactions
      [Sample.listener] Sample.oneAccount Sample.lastFirst
      (mkLoop 4 "s4" Sample.staleState) = Continue l'
    /\ GetLocalNewBlock (loopState l') = (3, "s3").
Proof.
  destruct (fork_recovery_cursor "BEAM" 8 Sample.inputSID Sample.outputSID
              Sample.wxID (Sample.walletAt 10) Sample.mainChain
              Sample.noTransactions [Sample.listener] Sample.oneAccount
              Sample.lastFirst (mkLoop 4 "s4" Sample.staleState) 10
              (Sample.mainBlock 5) (Sample.staleBlock 3))
    as (l' & Hiter & _ & _ & Hcursor & _);
    [reflexivity | reflexivity | reflexivity | split; vm_compute; congruence
    | reflexivity | vm_compute; congruence | reflexivity | reflexivity |].
  exists l'. split; [exact Hiter | exact Hcursor].
Defined.

(** After the fork found at height 5 the cursor is at height 3, two below,
    not at height 2. *)
Lemma fork_recovery_two_back :
  GetLocalNewBlock
    (stateAfter
       (scanIter "BEAM" 8 Sample.inputSID Sample.outputSID Sample.wxID
          (Sample.walletAt 10) Sample.mainChain Sample.noTransactions
          [Sample.listener] Sample.oneAccount Sample.lastFirst
          (mkLoop 4 "s4" Sample.staleState)))
  = (3, "s3")
  /\ (GetLocalNewBlock
        (stateAfter
           (scanIter "BEAM" 8 Sample.inputSID Sample.outputSID Sample.wxID
              (Sample.walletAt 10) Sample.mainChain Sample.noTransactions
              [Sample.listener] Sample.oneAccount Sample.lastFirst
              (mkLoop 4 "s4" Sample.staleState)))).1
     <> 5 - 3.
Proof. vm_compute. split; [reflexivity | discriminate]. Qed.

(** * Further properties of the scanner *)

(** ** Extraction: the remaining cases *)
Section ExtractionCases.

Variable wm_Symbol : string.
Variable wm_Decimal : Z.
Variable GenTxInputSID : string -> string -> string -> Z -> string.
Variable GenTxOutPutSID : string -> string -> string -> Z -> string.
Variable GenTransactionWxID : openwallet.Transaction -> string.
Variable GetBlockByHeight : Z -> result Block.
Variable wm_GetTransaction : string -> result Transaction.

Local Abbreviation initTxExtractData :=
  (initTxExtractData wm_Symbol wm_Decimal GenTxInputSID GenTxOutPutSID
     GenTransactionWxID).
Local Abbreviation InitExtractResult :=
  (InitExtractResult wm_Symbol wm_Decimal GenTxInputSID GenTxOutPutSID
     GenTransactionWxID).
Local Abbreviation stampTransaction := (stampTransaction GetBlockByHeight).
Local Abbreviation ExtractTransaction :=
  (ExtractTransaction wm_Symbol wm_Decimal GenTxInputSID GenTxOutPutSID
     GenTransactionWxID GetBlockByHeight).
Local Abbreviation ExtractTransactionData :=
  (ExtractTransactionData wm_Symbol wm_Decimal GenTxInputSID GenTxOutPutSID
     GenTransactionWxID GetBlockByHeight wm_GetTransaction).

(** The extraction data in terms of the resolver's two answers. *)
Lemma ExtractTransaction_data blockHeight blockHash trx f k1 ok1 k2 ok2 :
  f (mkScanTarget (trx_Sender trx) BalanceModelTypeAddress) = (k1, ok1) ->
  f (mkScanTarget (trx_Receiver trx) BalanceModelTypeAddress) = (k2, ok2) ->
  let trx' := stampTransaction blockHeight blockHash trx in
  let r0 := mkExtractResult ∅ (trx_TxID trx) blockHeight false in
  extractData (ExtractTransaction blockHeight blockHash trx f).1
  = extractData
      (if bool_decide (k1 = k2) && (0 <? String.length k1)%nat
          && (0 <? String.length k2)%nat
       then InitExtractResult trx' k1 r0 0
       else
         let r := if ok1 then InitExtractResult trx' k1 r0 1 else r0 in
         if ok2 then InitExtractResult trx' k2 r 2 else r).
Proof.
  intros H1 H2. cbv zeta.
  rewrite (ExtractTransaction_unfold wm_Symbol wm_Decimal GenTxInputSID
             GenTxOutPutSID GenTransactionWxID GetBlockByHeight).
  cbv zeta. rewrite H1, H2. reflexivity.
Qed.

(** X1. When neither address is matched and the two keys are not one
    non-empty key, the result is successful and holds nothing. *)
Theorem no_match_empty_result
    (blockHeight : Z) (blockHash : string) (trx : Transaction)
    (f : BlockScanTargetFunc) (k1 k2 : string) :
  f (mkScanTarget (trx_Sender trx) BalanceModelTypeAddress) = (k1, false) ->
  f (mkScanTarget (trx_Receiver trx) BalanceModelTypeAddress) = (k2, false) ->
  k1 ≠ k2 \/ k1 = "" ->
  extractData (ExtractTransaction blockHeight blockHash trx f).1 = ∅
  /\ Success (ExtractTransaction blockHeight blockHash trx f).1 = true.
Proof.
  intros H1 H2 Hk. split.
  - rewrite (ExtractTransaction_data _ _ _ _ _ _ _ _ H1 H2). cbv zeta.
    destruct Hk as [Hne | ->].
    + rewrite bool_decide_eq_false_2 by exact Hne. reflexivity.
    + destruct (bool_decide ("" = k2)); reflexivity.
  - apply ExtractTransaction_Success.
Qed.

(** X2. The empty key is not taken as a shared account: when both
    addresses resolve to the empty key, the matched sides are extracted
    one by one and end up as separate record sets under the empty key, the
    input-only one first. *)
Theorem empty_key_separate_sets
    (blockHeight : Z) (blockHash : string) (trx : Transaction)
    (f : BlockScanTargetFunc) (ok1 ok2 : bool) :
  f (mkScanTarget (trx_Sender trx) BalanceModelTypeAddress) = ("", ok1) ->
  f (mkScanTarget (trx_Receiver trx) BalanceModelTypeAddress) = ("", ok2) ->
  let din := initTxExtractData (stampTransaction blockHeight blockHash trx) 1 in
  let dout := initTxExtractData (stampTransaction blockHeight blockHash trx) 2 in
  extractData (ExtractTransaction blockHeight blockHash trx f).1 !! ""
  = (if ok1 || ok2
     then Some ((if ok1 then [din] else []) ++ (if ok2 then [dout] else []))
     else None)
  /\ forall k, k ≠ "" ->
       extractData (ExtractTransaction blockHeight blockHash trx f).1 !! k = None.
Proof.
  intros H1 H2. cbv zeta.
  rewrite (ExtractTransaction_data _ _ _ _ _ _ _ _ H1 H2). cbv zeta.
  rewrite bool_decide_eq_true_2 by reflexivity.
  cbn [String.length Nat.ltb Nat.leb andb].
  split.
  - destruct ok1, ok2; cbn [orb];
      rewrite ?InitExtractResult_lookup; reflexivity.
  - intros k Hk. destruct ok1, ok2;
      rewrite ?InitExtractResult_lookup_ne by congruence; reflexivity.
Qed.

(** The block height and hash a transaction is stamped with. *)
Lemma stampTransaction_block blockHeight blockHash trx :
  (trx_BlockHeight (stampTransaction blockHeight blockHash trx),
   trx_BlockHash (stampTransaction blockHeight blockHash trx))
  = if decide (blockHash = "") then
      match GetBlockByHeight (trx_BlockHeight trx) with
      | Ok block => (Height block, Hash block)
      | Err _ => (blockHeight, "")
      end
    else (blockHeight, blockHash).
Proof.
  unfold stampTransaction. destruct blockHash as [|c bh].
  - cbn [String.length Nat.eqb]. rewrite decide_True by reflexivity.
    destruct (GetBlockByHeight _); reflexivity.
  - cbn [String.length Nat.eqb]. rewrite decide_False by discriminate.
    reflexivity.
Qed.

Lemma initTxExtractData_block tx operate :
  Forall (fun i => (r_BlockHeight (in_Recharge i), r_BlockHash (in_Recharge i))
                   = (trx_BlockHeight tx, trx_BlockHash tx))
    (TxInputs (initTxExtractData tx operate))
  /\ Forall (fun o => (r_BlockHeight (out_Recharge o), r_BlockHash (out_Recharge o))
                      = (trx_BlockHeight tx, trx_BlockHash tx))
       (TxOutputs (initTxExtractData tx operate))
  /\ (ow_BlockHeight (Transaction_ (initTxExtractData tx operate)),
      ow_BlockHash (Transaction_ (initTxExtractData tx operate)))
     = (trx_BlockHeight tx, trx_BlockHash tx).
Proof.
  unfold initTxExtractData.
  destruct (operate =? 0); [|destruct (operate =? 1); [|destruct (operate =? 2)]];
    (split; [|split]; [simpl; repeat constructor | simpl; repeat constructor
                      | reflexivity]).
Qed.

(** The block height and hash on the entries of a result. *)
Lemma entries_stamped
    (blockHeight : Z) (blockHash : string) (trx : Transaction)
    (f : BlockScanTargetFunc) (key : string) (ds : list TxExtractData)
    (d : TxExtractData) :
  extractData (ExtractTransaction blockHeight blockHash trx f).1 !! key = Some ds ->
  d ∈ ds ->
  let stamp :=
    if decide (blockHash = "") then
      match GetBlockByHeight (trx_BlockHeight trx) with
      | Ok block => (Height block, Hash block)
      | Err _ => (blockHeight, "")
      end
    else (blockHeight, blockHash) in
  Forall (fun i => (r_BlockHeight (in_Recharge i), r_BlockHash (in_Recharge i)) = stamp)
    (TxInputs d)
  /\ Forall (fun o => (r_BlockHeight (out_Recharge o), r_BlockHash (out_Recharge o)) = stamp)
       (TxOutputs d)
  /\ (ow_BlockHeight (Transaction_ d), ow_BlockHash (Transaction_ d)) = stamp
  /\ er_BlockHeight (ExtractTransaction blockHeight blockHash trx f).1 = blockHeight.
Proof.
  intros Hl Hin. cbv zeta.
  destruct (ExtractTransaction_elems wm_Symbol wm_Decimal GenTxInputSID
              GenTxOutPutSID GenTransactionWxID GetBlockByHeight
              _ _ _ _ _ _ _ Hl Hin) as [operate ->].
  rewrite <- stampTransaction_block.
  destruct (initTxExtractData_block (stampTransaction blockHeight blockHash trx)
              operate) as (Hi & Ho & Ht).
  split; [exact Hi|]. split; [exact Ho|]. split; [exact Ht|].
  rewrite (ExtractTransaction_unfold wm_Symbol wm_Decimal GenTxInputSID
             GenTxOutPutSID GenTransactionWxID GetBlockByHeight).
  cbv zeta. cbn [fst].
  destruct (bool_decide _ && _ && _); [reflexivity|].
  destruct (f _).2, (f _).2; reflexivity.
Qed.

(** X3. Every entry of every record set of a result, and the transaction
    of the record set, carry one block height and hash: the caller's, when
    a hash was given; otherwise those of the block the wallet client finds
    at the transaction's own height; and when that lookup fails, the
    caller's height with an empty hash.  The result itself keeps the
    caller's height in every case. *)
Theorem entries_carry_block
    (blockHeight : Z) (blockHash : string) (trx : Transaction)
    (f : BlockScanTargetFunc) (key : string) (ds : list TxExtractData)
    (d : TxExtractData) :
  extractData (ExtractTransaction blockHeight blockHash trx f).1 !! key = Some ds ->
  d ∈ ds ->
  let stamp :=
    if decide (blockHash = "") then
      match GetBlockByHeight (trx_BlockHeight trx) with
      | Ok block => (Height block, Hash block)
      | Err _ => (blockHeight, "")
      end
    else (blockHeight, blockHash) in
  Forall (fun i => (r_BlockHeight (in_Recharge i), r_BlockHash (in_Recharge i)) = stamp)
    (TxInputs d)
  /\ Forall (fun o => (r_BlockHeight (out_Recharge o), r_BlockHash (out_Recharge o)) = stamp)
       (TxOutputs d)
  /\ (ow_BlockHeight (Transaction_ d), ow_BlockHash (Transaction_ d)) = stamp
  /\ er_BlockHeight (ExtractTransaction blockHeight blockHash trx f).1 = blockHeight.
Proof. exact (entries_stamped blockHeight blockHash trx f key ds d). Qed.

(** X4. [ExtractTransactionData] fails only with the error of the
    transaction lookup.  Otherwise it returns the data extracted with
    height 0 and no hash: every entry carries the height and hash of the
    block found at the transaction's own height, or height 0 and an empty
    hash when that block is not found, whatever height the transaction
    reported. *)
Theorem ExtractTransactionData_result
    (txid : string) (f : BlockScanTargetFunc) :
  match wm_GetTransaction txid with
  | Err e => ExtractTransactionData txid f = Err e
  | Ok tx =>
      ExtractTransactionData txid f
      = Ok (extractData (ExtractTransaction 0 "" tx f).1)
      /\ forall key ds d,
           extractData (ExtractTransaction 0 "" tx f).1 !! key = Some ds ->
           d ∈ ds ->
           Forall (fun i => (r_BlockHeight (in_Recharge i), r_BlockHash (in_Recharge i))
                            = match GetBlockByHeight (trx_BlockHeight tx) with
                              | Ok block => (Height block, Hash block)
                              | Err _ => (0, "")
                              end) (TxInputs d)
           /\ Forall (fun o => (r_BlockHeight (out_Recharge o), r_BlockHash (out_Recharge o))
                               = match GetBlockByHeight (trx_BlockHeight tx) with
                                 | Ok block => (Height block, Hash block)
                                 | Err _ => (0, "")
                                 end) (TxOutputs d)
  end.
Proof.
  unfold ExtractTransactionData.
  destruct (wm_GetTransaction txid) as [tx|e]; [|reflexivity].
  split; [reflexivity|].
  intros key ds d Hl Hin.
  destruct (entries_stamped 0 "" tx f key ds d Hl Hin) as (Hi & Ho & _).
  rewrite decide_True in Hi, Ho by reflexivity.
  split; assumption.
Qed.

End ExtractionCases.

(** ** Notifier and batch pipeline: what they change *)

Lemma withQueues_nil s : withQueues [] [] s = s.
Proof. destruct s. unfold withQueues. simpl. rewrite !app_nil_r. reflexivity. Qed.

Lemma withQueues_compose r1 n1 r2 n2 s :
  withQueues r2 n2 (withQueues r1 n1 s) = withQueues (r1 ++ r2) (n1 ++ n2) s.
Proof. unfold withQueues. simpl. rewrite !app_assoc. reflexivity. Qed.

Lemma SaveUnscanRecord_withQueues r s :
  SaveUnscanRecord r s = withQueues [r] [] s.
Proof.
  destruct s. unfold SaveUnscanRecord, set_unscanRecords, withQueues. simpl.
  rewrite app_nil_r. reflexivity.
Qed.

(** A loop whose body only appends to the two queues appends, in all, the
    concatenation of what the single passes append. *)
Lemma foldl_withQueues {A : Type} (step : State -> A -> State)
    (R : A -> list UnscanRecord) (N : A -> list (nat * string * TxExtractData)) :
  (forall s x, step s x = withQueues (R x) (N x) s) ->
  forall l s, foldl step s l = withQueues (flat_map R l) (flat_map N l) s.
Proof.
  intros Hstep l. induction l as [|x l IH]; intros s; cbn [foldl flat_map].
  - symmetry. apply withQueues_nil.
  - rewrite IH, Hstep. apply withQueues_compose.
Qed.

Lemma flat_map_map {A B C : Type} (f : B -> list C) (g : A -> B) (l : list A) :
  flat_map f (map g l) = flat_map (fun x => f (g x)) l.
Proof. induction l as [|x l IH]; cbn; [reflexivity | by rewrite IH]. Qed.

Lemma flat_map_flat_map {A B C : Type} (f : B -> list C) (g : A -> list B)
    (l : list A) :
  flat_map f (flat_map g l) = flat_map (fun x => flat_map f (g x)) l.
Proof.
  induction l as [|x l IH]; cbn; [reflexivity|].
  rewrite flat_map_app, IH. reflexivity.
Qed.

Lemma flat_map_singleton {A B : Type} (f : A -> B) (l : list A) :
  flat_map (fun x => [f x]) l = map f l.
Proof. induction l as [|x l IH]; cbn; [reflexivity | by rewrite IH]. Qed.

Lemma flat_map_filter {A B : Type} (p : A -> bool) (b : B) (l : list A) :
  flat_map (fun x => if p x then [b] else []) l
  = map (fun _ => b) (List.filter p l).
Proof.
  induction l as [|x l IH]; cbn; [reflexivity|].
  destruct (p x); cbn; by rewrite IH.
Qed.

Lemma length_flat_map_const {A B : Type} (g : A -> list B) (n : nat) (l : list A) :
  (forall x, length (g x) = n) -> length (flat_map g l) = (length l * n)%nat.
Proof.
  intros Hg. induction l as [|x l IH]; cbn; [reflexivity|].
  rewrite length_app, IH, Hg. reflexivity.
Qed.

Section PipelineFacts.

Variable wm_Symbol : string.
Variable wm_Decimal : Z.
Variable GenTxInputSID : string -> string -> string -> Z -> string.
Variable GenTxOutPutSID : string -> string -> string -> Z -> string.
Variable GenTransactionWxID : openwallet.Transaction -> string.
Variable GetWalletStatus : result WalletStatus.
Variable GetBlockByHeight : Z -> result Block.
Variable GetTransactionsByHeight : Z -> result (list Transaction).
Variable Observers : list Observer.
Variable ScanTargetFunc : BlockScanTargetFunc.
Variable schedule : list ExtractResult -> list ExtractResult.
Variable DeleteUnscanRecordNotFindTX : State -> State.

Local Abbreviation extractWork :=
  (extractWork wm_Symbol wm_Decimal GenTxInputSID GenTxOutPutSID
     GenTransactionWxID GetBlockByHeight ScanTargetFunc).
Local Abbreviation newExtractDataNotify := (newExtractDataNotify Observers).
Local Abbreviation saveOne := (saveOne Observers).
Local Abbreviation saveWork := (saveWork Observers).
Local Abbreviation BatchExtractTransaction :=
  (BatchExtractTransaction wm_Symbol wm_Decimal GenTxInputSID GenTxOutPutSID
     GenTransactionWxID GetBlockByHeight GetTransactionsByHeight Observers
     ScanTargetFunc schedule).
Local Abbreviation newBlockNotify := (newBlockNotify wm_Symbol Observers).
Local Abbreviation scanBlock :=
  (scanBlock wm_Symbol wm_Decimal GenTxInputSID GenTxOutPutSID
     GenTransactionWxID GetBlockByHeight GetTransactionsByHeight Observers
     ScanTargetFunc schedule).
Local Abbreviation ScanBlock :=
  (ScanBlock wm_Symbol wm_Decimal GenTxInputSID GenTxOutPutSID
     GenTransactionWxID GetBlockByHeight GetTransactionsByHeight Observers
     ScanTargetFunc schedule).
Local Abbreviation tailRescan :=
  (tailRescan wm_Symbol wm_Decimal GenTxInputSID GenTxOutPutSID
     GenTransactionWxID GetBlockByHeight GetTransactionsByHeight Observers
     ScanTargetFunc schedule).

Lemma notifyOne_withQueues height (o : nat * Observer) key data s :
  notifyOne height o key data s
  = withQueues (if rejected (o.1, o.2, key, data) then [notifyFailed height] else [])
      [deliveryNote (o.1, o.2, key, data)] s.
Proof.
  destruct s. unfold notifyOne, rejected, deliveryNote. cbn [fst snd].
  destruct (BlockExtractDataNotify o.2 key data);
    unfold withQueues, SaveUnscanRecord, set_unscanRecords, set_dataNotified;
    simpl; rewrite ?app_nil_r; reflexivity.
Qed.


(** The deliveries and the records of [newExtractDataNotify]. *)
Lemma newExtractDataNotify_queues
    (height : Z) (extractData : gmap string (list TxExtractData)) (s : State) :
  newExtractDataNotify height extractData s
  = (withQueues
       (map (fun _ => notifyFailed height)
          (List.filter rejected (deliveries Observers extractData)))
       (map deliveryNote (deliveries Observers extractData)) s,
     None)
  /\ length (deliveries Observers extractData)
     = (length Observers * recordSets extractData)%nat.
Proof.
  split.
  - unfold newExtractDataNotify. f_equal.
    rewrite (foldl_withQueues _
               (fun o : nat * Observer =>
                  flat_map (fun kv : string * list TxExtractData =>
                    flat_map (fun data =>
                      if rejected (o.1, o.2, kv.1, data)
                      then [notifyFailed height] else []) kv.2)
                    (map_to_list extractData))
               (fun o : nat * Observer =>
                  flat_map (fun kv : string * list TxExtractData =>
                    flat_map (fun data => [deliveryNote (o.1, o.2, kv.1, data)]) kv.2)
                    (map_to_list extractData))).
    + rewrite <- flat_map_filter, <- flat_map_singleton.
      unfold deliveries. rewrite !flat_map_flat_map.
      f_equal; apply flat_map_ext; intros o;
        rewrite flat_map_flat_map; apply flat_map_ext; intros kv;
        rewrite flat_map_map; reflexivity.
    + intros s0 o. apply foldl_withQueues. intros s1 kv.
      apply foldl_withQueues. intros s2 data. apply notifyOne_withQueues.
  - unfold deliveries, recordSets.
    rewrite (length_flat_map_const _
               (length (flat_map snd (map_to_list extractData)))).
    + rewrite length_imap. reflexivity.
    + intros o. induction (map_to_list extractData) as [|kv kvs IH]; cbn;
        [reflexivity|].
      rewrite !length_app, length_map, IH. reflexivity.
Qed.

(** X5. [newExtractDataNotify] offers every record set of every key to
    every observer, whatever the other deliveries answer; each delivery
    that is turned down leaves one unscanned record for the block, with an
    empty txID and the fixed reason; nothing else of the state changes,
    and the error returned is nil. *)
Theorem newExtractDataNotify_effect
    (height : Z) (extractData : gmap string (list TxExtractData)) (s : State) :
  newExtractDataNotify height extractData s
  = (withQueues
       (map (fun _ => notifyFailed height)
          (List.filter rejected (deliveries Observers extractData)))
       (map deliveryNote (deliveries Observers extractData)) s,
     None)
  /\ length (deliveries Observers extractData)
     = (length Observers * recordSets extractData)%nat.
Proof. exact (newExtractDataNotify_queues height extractData s). Qed.

(** What one pass of [saveWork] changes. *)
Lemma saveOne_effect height s c gets :
  exists records notes,
    saveOne height (s, c) gets
    = (withQueues records notes s,
       mkCounters (done c + 1)
         (if Success gets then failed c else failed c + 1))
    /\ Forall (fun r => ur_BlockHeight r = height /\ ur_TxID r = "") records.
Proof.
  unfold saveOne. destruct (Success gets).
  - destruct (newExtractDataNotify_queues height (extractData gets) s) as [-> _].
    eexists _, _. split; [reflexivity|].
    apply Forall_forall. intros r Hin.
    apply list_elem_of_In, in_map_iff in Hin as (x & <- & _). done.
  - exists [NewUnscanRecord height "" ""], [].
    rewrite SaveUnscanRecord_withQueues. split; [reflexivity|].
    repeat constructor.
Qed.

Lemma saveWork_effect_from height results s c :
  exists records notes,
    foldl (saveOne height) (s, c) results
    = (withQueues records notes s,
       mkCounters (done c + Z.of_nat (length results))
         (failed c
          + Z.of_nat (length (List.filter (fun r => negb (Success r)) results))))
    /\ Forall (fun r => ur_BlockHeight r = height /\ ur_TxID r = "") records.
Proof.
  revert s c. induction results as [|gets results IH]; intros s c.
  - exists [], []. cbn. rewrite withQueues_nil, !Z.add_0_r.
    destruct c. split; [reflexivity | constructor].
  - cbn [foldl].
    destruct (saveOne_effect height s c gets) as (r1 & n1 & -> & H1).
    destruct (IH (withQueues r1 n1 s)
                (mkCounters (done c + 1)
                   (if Success gets then failed c else failed c + 1)))
      as (r2 & n2 & -> & H2).
    exists (r1 ++ r2), (n1 ++ n2). rewrite withQueues_compose.
    split; [|apply Forall_app; split; assumption].
    f_equal. cbn [done failed List.filter length].
    destruct (Success gets); cbn [negb length]; f_equal; lia.
Qed.

(** X6. When [saveWork] has consumed all results, whatever their order,
    its completion counter equals their number, and its failure counter
    equals the number of results that were not successful: a delivery that
    an observer turns down is not counted. *)
Theorem saveWork_counters (height : Z) (results : list ExtractResult) (s : State) :
  done (saveWork height results s).2 = Z.of_nat (length results)
  /\ failed (saveWork height results s).2
     = Z.of_nat (length (List.filter (fun r => negb (Success r)) results)).
Proof.
  unfold saveWork.
  destruct (saveWork_effect_from height results s (mkCounters 0 0))
    as (records & notes & -> & _).
  split; reflexivity.
Qed.

(** What [BatchExtractTransaction] appends to the two queues. *)
Lemma BatchExtractTransaction_queues
    (blockHeight : Z) (blockHash : string) (s : State) :
  (exists records notes,
     (BatchExtractTransaction blockHeight blockHash s).1
     = withQueues records notes s
     /\ Forall (fun r => ur_BlockHeight r = blockHeight /\ ur_TxID r = "") records)
  /\ match GetTransactionsByHeight blockHeight with
     | Err e => BatchExtractTransaction blockHeight blockHash s = (s, Some e)
     | Ok [] => BatchExtractTransaction blockHeight blockHash s = (s, None)
     | Ok _ => True
     end.
Proof.
  unfold BatchExtractTransaction.
  destruct (GetTransactionsByHeight blockHeight) as [txs|e].
  - destruct txs as [|tx txs]; cbn [length Nat.eqb].
    + split; [|reflexivity]. exists [], []. rewrite withQueues_nil.
      split; [reflexivity | constructor].
    + split; [|exact I]. unfold saveWork.
      destruct (saveWork_effect_from blockHeight
                  (schedule (extractWork blockHeight blockHash (tx :: txs)))
                  s (mkCounters 0 0)) as (records & notes & -> & Hall).
      exists records, notes.
      split; [|exact Hall]. destruct (0 <? _); reflexivity.
  - split; [|reflexivity]. exists [], []. rewrite withQueues_nil.
    split; [reflexivity | constructor].
Qed.

(** X7. [BatchExtractTransaction] changes nothing but the two queues: the
    cursor, the stored blocks, the block notifications and the scanner's
    settings stay as they are, the unscanned records and the data
    deliveries only grow, and every record added is for this block height
    with an empty txID.  When the transaction listing fails or is empty,
    nothing changes at all. *)
Theorem BatchExtractTransaction_frame
    (blockHeight : Z) (blockHash : string) (s : State) :
  (exists records notes,
     (BatchExtractTransaction blockHeight blockHash s).1
     = withQueues records notes s
     /\ Forall (fun r => ur_BlockHeight r = blockHeight /\ ur_TxID r = "") records)
  /\ match GetTransactionsByHeight blockHeight with
     | Err e => BatchExtractTransaction blockHeight blockHash s = (s, Some e)
     | Ok [] => BatchExtractTransaction blockHeight blockHash s = (s, None)
     | Ok _ => True
     end.
Proof. exact (BatchExtractTransaction_queues blockHeight blockHash s). Qed.

Lemma scanBlock_effect height s :
  exists records notes,
    (scanBlock height s).1 = withQueues records notes s
    /\ Forall (fun r => ur_TxID r = "") records.
Proof.
  unfold scanBlock. destruct (GetBlockByHeight height) as [block|e].
  - destruct (BatchExtractTransaction_queues (Height block) (Hash block) s)
      as [(records & notes & Hs & Hall) _].
    destruct (BatchExtractTransaction (Height block) (Hash block) s) as [s' err].
    exists records, notes. split; [exact Hs|].
    eapply Forall_impl; [exact Hall|]. intros r [_ Hr]. exact Hr.
  - eexists _, []. rewrite SaveUnscanRecord_withQueues.
    split; [reflexivity|]. repeat constructor.
Qed.

(** X8. [ScanBlock] on a height whose block cannot be fetched returns the
    fetch error, leaves one unscanned record for the height with an empty
    txID and the error's text, and announces nothing.  On a height whose
    block is fetched it returns nil, also when the extraction of the block
    failed, and sends each observer exactly one header of the block, not
    flagged as a fork; it neither moves the cursor nor stores the block. *)
Theorem ScanBlock_outcome (height : Z) (s : State) :
  match GetBlockByHeight height with
  | Err e =>
      ScanBlock height s
      = (SaveUnscanRecord (NewUnscanRecord height "" (error_Error e)) s, Some e)
  | Ok block =>
      exists s',
        ScanBlock height s = (s', None)
        /\ blockNotified s'
           = blockNotified s
             ++ map (fun o => (o, Block_BlockHeader block wm_Symbol))
                  (seq 0 (length Observers))
        /\ GetLocalNewBlock s' = GetLocalNewBlock s
        /\ localBlocks s' = localBlocks s
  end.
Proof.
  unfold ScanBlock.
  pose proof (scanBlock_effect height s) as (records & notes & Hs & _).
  unfold scanBlock in *.
  destruct (GetBlockByHeight height) as [block|e]; [|reflexivity].
  destruct (BatchExtractTransaction (Height block) (Hash block) s) as [s1 err].
  cbn [fst] in Hs. subst s1.
  eexists. split; [reflexivity|]. repeat split.
Qed.

(** X9. The tail rescan changes nothing but the two queues, and the
    records it adds are whole-block records (empty txID): it does not move
    the cursor, store a block or announce a block. *)
Theorem tailRescan_effect (currentHeight : Z) (s : State) :
  exists records notes,
    tailRescan currentHeight s = withQueues records notes s
    /\ Forall (fun r => ur_TxID r = "") records.
Proof.
  unfold tailRescan.
  generalize (tailRescanHeights currentHeight (RescanLastBlockCount s)).
  intros heights. revert s. induction heights as [|h heights IH]; intros s.
  - exists [], []. cbn. rewrite withQueues_nil. split; [reflexivity | constructor].
  - cbn [foldl].
    destruct (scanBlock_effect h s) as (r1 & n1 & -> & H1).
    destruct (IH (withQueues r1 n1 s)) as (r2 & n2 & -> & H2).
    exists (r1 ++ r2), (n1 ++ n2). rewrite withQueues_compose.
    split; [reflexivity | apply Forall_app; split; assumption].
Qed.

End PipelineFacts.

(** ** The retry pass *)

Lemma recordsAt_withQueues_other height h records notes s :
  Forall (fun r => ur_BlockHeight r = h) records ->
  h ≠ height ->
  recordsAt height (withQueues records notes s) = recordsAt height s.
Proof.
  intros Hall Hne. unfold recordsAt, withQueues. cbn [unscanRecords].
  rewrite filter_app.
  replace (filter (fun r => ur_BlockHeight r = height) records) with (@nil UnscanRecord).
  - apply app_nil_r.
  - symmetry. induction Hall as [|r records Hr _ IH]; [reflexivity|].
    rewrite filter_cons_False by congruence. exact IH.
Qed.

Lemma recordsAt_DeleteUnscanRecord_other height h s :
  h ≠ height ->
  recordsAt height (DeleteUnscanRecord h s) = recordsAt height s.
Proof.
  intros Hne. unfold recordsAt, DeleteUnscanRecord, set_unscanRecords.
  cbn [unscanRecords].
  induction (unscanRecords s) as [|r l IH]; [reflexivity|].
  destruct (decide (ur_BlockHeight r = h)) as [Hr|Hr].
  - rewrite (filter_cons_False (fun r => ur_BlockHeight r ≠ h)) by (intros ?; done).
    rewrite filter_cons_False by congruence. exact IH.
  - rewrite (filter_cons_True (fun r => ur_BlockHeight r ≠ h)) by exact Hr.
    destruct (decide (ur_BlockHeight r = height)) as [Hr'|Hr'].
    + rewrite !filter_cons_True by exact Hr'. f_equal. exact IH.
    + rewrite !filter_cons_False by exact Hr'. exact IH.
Qed.

Lemma recordsAt_DeleteUnscanRecord height s :
  recordsAt height (DeleteUnscanRecord height s) = [].
Proof.
  unfold recordsAt, DeleteUnscanRecord, set_unscanRecords. cbn [unscanRecords].
  induction (unscanRecords s) as [|r l IH]; [reflexivity|].
  destruct (decide (ur_BlockHeight r = height)) as [Hr|Hr].
  - rewrite (filter_cons_False (fun r => ur_BlockHeight r ≠ height))
      by (intros ?; done).
    exact IH.
  - rewrite (filter_cons_True (fun r => ur_BlockHeight r ≠ height)) by exact Hr.
    rewrite filter_cons_False by exact Hr. exact IH.
Qed.

Section RetryFacts.

Variable wm_Symbol : string.
Variable wm_Decimal : Z.
Variable GenTxInputSID : string -> string -> string -> Z -> string.
Variable GenTxOutPutSID : string -> string -> string -> Z -> string.
Variable GenTransactionWxID : openwallet.Transaction -> string.
Variable GetWalletStatus : result WalletStatus.
Variable GetBlockByHeight : Z -> result Block.
Variable GetTransactionsByHeight : Z -> result (list Transaction).
Variable Observers : list Observer.
Variable ScanTargetFunc : BlockScanTargetFunc.
Variable schedule : list ExtractResult -> list ExtractResult.
Variable DeleteUnscanRecordNotFindTX : State -> State.

Local Abbreviation BatchExtractTransaction :=
  (BatchExtractTransaction wm_Symbol wm_Decimal GenTxInputSID GenTxOutPutSID
     GenTransactionWxID GetBlockByHeight GetTransactionsByHeight Observers
     ScanTargetFunc schedule).
Local Abbreviation rescanOne :=
  (rescanOne wm_Symbol wm_Decimal GenTxInputSID GenTxOutPutSID
     GenTransactionWxID GetBlockByHeight GetTransactionsByHeight Observers
     ScanTargetFunc schedule).
Local Abbreviation RescanFailedRecord :=
  (RescanFailedRecord wm_Symbol wm_Decimal GenTxInputSID GenTxOutPutSID
     GenTransactionWxID GetBlockByHeight GetTransactionsByHeight Observers
     ScanTargetFunc schedule DeleteUnscanRecordNotFindTX).

(** Retrying one height leaves the records of every other height alone. *)
Lemma rescanOne_other s h height :
  h ≠ height -> recordsAt height (rescanOne s h) = recordsAt height s.
Proof.
  intros Hne. unfold rescanOne.
  destruct (h =? 0); [reflexivity|].
  destruct (GetBlockByHeight h) as [block|e]; [|reflexivity].
  destruct (BatchExtractTransaction_queues wm_Symbol wm_Decimal GenTxInputSID
              GenTxOutPutSID GenTransactionWxID GetBlockByHeight
              GetTransactionsByHeight Observers ScanTargetFunc schedule
              h (Hash block) s) as [(records & notes & Hs & Hall) _].
  destruct (BatchExtractTransaction h (Hash block) s) as [s' err].
  cbn [fst] in Hs. subst s'.
  assert (Hrec : recordsAt height (withQueues records notes s) = recordsAt height s).
  { apply (recordsAt_withQueues_other height h); [|exact Hne].
    eapply Forall_impl; [exact Hall|]. intros r [Hr _]. exact Hr. }
  destruct err; [exact Hrec|].
  rewrite recordsAt_DeleteUnscanRecord_other by exact Hne. exact Hrec.
Qed.

(** A height that is 0, or whose block or transaction list cannot be
    fetched, is passed over. *)
Lemma rescanOne_skip s h :
  h = 0 \/ (exists e, GetBlockByHeight h = Err e)
  \/ (exists e, GetTransactionsByHeight h = Err e) ->
  rescanOne s h = s.
Proof.
  intros Hskip. unfold rescanOne.
  destruct (h =? 0) eqn:E; [reflexivity|].
  destruct Hskip as [-> | [[e He] | [e He]]]; [discriminate | by rewrite He |].
  destruct (GetBlockByHeight h) as [block|e']; [|reflexivity].
  unfold BatchExtractTransaction. rewrite He. reflexivity.
Qed.

(** With the transaction list at hand the batch reports no error. *)
Lemma BatchExtractTransaction_listed blockHeight blockHash txs s :
  (forall l, schedule l ≡ₚ l) ->
  GetTransactionsByHeight blockHeight = Ok txs ->
  (BatchExtractTransaction blockHeight blockHash s).2 = None.
Proof.
  intros Hperm Htx. unfold BatchExtractTransaction. rewrite Htx.
  destruct (length txs =? 0)%nat; [reflexivity|].
  unfold saveWork.
  pose proof (saveWork_failed_from Observers blockHeight
                (schedule (extractWork wm_Symbol wm_Decimal GenTxInputSID
                             GenTxOutPutSID GenTransactionWxID GetBlockByHeight
                             ScanTargetFunc blockHeight blockHash txs))
                s (mkCounters 0 0)) as Hfailed.
  destruct (foldl _ _ _) as [s' c]. cbn [snd] in Hfailed.
  rewrite Hfailed; [reflexivity|].
  rewrite (Hperm _). apply extractWork_Success.
Qed.

(** A height above 0 whose block and transaction list are fetched loses all
    its records. *)
Lemma rescanOne_done s h block txs :
  (forall l, schedule l ≡ₚ l) ->
  h ≠ 0 -> GetBlockByHeight h = Ok block -> GetTransactionsByHeight h = Ok txs ->
  recordsAt h (rescanOne s h) = [].
Proof.
  intros Hperm Hh Hb Htx. unfold rescanOne.
  rewrite (proj2 (Z.eqb_neq h 0)) by exact Hh. rewrite Hb.
  pose proof (BatchExtractTransaction_listed h (Hash block) txs s Hperm Htx) as Hnone.
  destruct (BatchExtractTransaction h (Hash block) s) as [s' err].
  cbn [snd] in Hnone. subst err.
  apply recordsAt_DeleteUnscanRecord.
Qed.

(** X10. Records that the retry pass cannot work on stay in the queue as
    they are: those of height 0, those of a height whose block cannot be
    fetched, and those of a height whose transaction list cannot be
    fetched (up to the store's final cleanup). *)
Theorem RescanFailedRecord_keeps (s : State) (height : Z) :
  height = 0 \/ (exists e, GetBlockByHeight height = Err e)
  \/ (exists e, GetTransactionsByHeight height = Err e) ->
  exists s',
    RescanFailedRecord s = DeleteUnscanRecordNotFindTX s'
    /\ recordsAt height s' = recordsAt height s.
Proof.
  intros Hskip. unfold RescanFailedRecord. eexists. split; [reflexivity|].
  generalize (rescanHeights (GetUnscanRecords s)). intros heights.
  revert s. induction heights as [|h heights IH]; intros s; [reflexivity|].
  cbn [foldl]. rewrite IH.
  destruct (decide (h = height)) as [-> | Hne].
  - rewrite rescanOne_skip by exact Hskip. reflexivity.
  - apply rescanOne_other. exact Hne.
Qed.

Lemma foldl_rescanOne heights :
  (forall l, schedule l ≡ₚ l) ->
  NoDup heights ->
  (forall h, h ∈ heights -> h ≠ 0 ->
     (exists block, GetBlockByHeight h = Ok block)
     /\ (exists txs, GetTransactionsByHeight h = Ok txs)) ->
  forall s,
    (forall h, h ∉ heights ->
       recordsAt h (foldl rescanOne s heights) = recordsAt h s)
    /\ (forall h, h ∈ heights -> h ≠ 0 ->
          recordsAt h (foldl rescanOne s heights) = []).
Proof.
  intros Hperm Hnd. induction Hnd as [|a heights Ha Hnd IH]; intros Hserve s.
  - split; [reflexivity|]. intros h Hin. by apply elem_of_nil in Hin.
  - cbn [foldl].
    destruct (IH (fun h Hin => Hserve h (list_elem_of_further _ _ _ Hin))
                (rescanOne s a)) as [Hout Hin].
    split.
    + intros h Hh. rewrite Hout by (intros ?; apply Hh; by right).
      apply rescanOne_other. intros ->. apply Hh. by left.
    + intros h Hh H0. apply elem_of_cons in Hh as [-> | Hh].
      * rewrite Hout by exact Ha.
        destruct (Hserve a (list_elem_of_here _ _) H0) as [[block Hb] [txs Htx]].
        eapply rescanOne_done; eauto.
      * apply Hin; assumption.
Qed.

(** X11. When the wallet client serves the block and the transaction list
    of every height above 0 that has an unscanned record, the retry pass
    empties the queue of all records but those of height 0 (up to the
    store's final cleanup), whatever the observers answer to the
    deliveries it repeats. *)
Theorem RescanFailedRecord_clears (s : State) :
  (forall l, schedule l ≡ₚ l) ->
  (forall r, r ∈ unscanRecords s -> ur_BlockHeight r ≠ 0 ->
     (exists block, GetBlockByHeight (ur_BlockHeight r) = Ok block)
     /\ (exists txs, GetTransactionsByHeight (ur_BlockHeight r) = Ok txs)) ->
  exists s',
    RescanFailedRecord s = DeleteUnscanRecordNotFindTX s'
    /\ Forall (fun r => ur_BlockHeight r = 0) (unscanRecords s').
Proof.
  intros Hperm Hserve. unfold RescanFailedRecord. eexists. split; [reflexivity|].
  unfold GetUnscanRecords.
  assert (Hheights : forall h, h ∈ rescanHeights (unscanRecords s)
                               <-> exists r, r ∈ unscanRecords s /\ ur_BlockHeight r = h).
  { intros h. unfold rescanHeights. rewrite elem_of_remove_dups, list_elem_of_fmap.
    split; intros (r & H1 & H2); exists r; split; done. }
  destruct (foldl_rescanOne (rescanHeights (unscanRecords s)) Hperm
              (NoDup_remove_dups _)) with (s := s) as [Hout Hin].
  { intros h Hh H0. apply Hheights in Hh as (r & Hr & <-). apply Hserve; assumption. }
  apply Forall_forall. intros r Hr.
  destruct (decide (ur_BlockHeight r = 0)) as [H0|H0]; [exact H0|]. exfalso.
  assert (Hat : r ∈ recordsAt (ur_BlockHeight r)
                      (foldl rescanOne s (rescanHeights (unscanRecords s)))).
  { unfold recordsAt. apply list_elem_of_filter. split; [reflexivity | exact Hr]. }
  destruct (decide (ur_BlockHeight r ∈ rescanHeights (unscanRecords s))) as [Hh|Hh].
  - rewrite Hin in Hat by assumption. by apply elem_of_nil in Hat.
  - rewrite Hout in Hat by exact Hh.
    unfold recordsAt in Hat. apply list_elem_of_filter in Hat as [_ Hat].
    apply Hh, Hheights. exists r. done.
Qed.

End RetryFacts.

(** ** The scan loop: advancing, idling, losing the anchor *)
Section LoopFacts.

Variable wm_Symbol : string.
Variable wm_Decimal : Z.
Variable GenTxInputSID : string -> string -> string -> Z -> string.
Variable GenTxOutPutSID : string -> string -> string -> Z -> string.
Variable GenTransactionWxID : openwallet.Transaction -> string.
Variable GetWalletStatus : result WalletStatus.
Variable GetBlockByHeight : Z -> result Block.
Variable GetTransactionsByHeight : Z -> result (list Transaction).
Variable Observers : list Observer.
Variable ScanTargetFunc : BlockScanTargetFunc.
Variable schedule : list ExtractResult -> list ExtractResult.
Variable DeleteUnscanRecordNotFindTX : State -> State.

Local Abbreviation BatchExtractTransaction :=
  (BatchExtractTransaction wm_Symbol wm_Decimal GenTxInputSID GenTxOutPutSID
     GenTransactionWxID GetBlockByHeight GetTransactionsByHeight Observers
     ScanTargetFunc schedule).
Local Abbreviation GetBlockHeight := (GetBlockHeight GetWalletStatus).
Local Abbreviation GetCurrentBlockHeader := (GetCurrentBlockHeader GetWalletStatus).
Local Abbreviation GetScannedBlockHeader :=
  (GetScannedBlockHeader GetWalletStatus GetBlockByHeight).
Local Abbreviation SetRescanBlockHeight := (SetRescanBlockHeight GetBlockByHeight).
Local Abbreviation forkRecover := (forkRecover wm_Symbol GetBlockByHeight Observers).
Local Abbreviation scanIter :=
  (scanIter wm_Symbol wm_Decimal GenTxInputSID GenTxOutPutSID
     GenTransactionWxID GetWalletStatus GetBlockByHeight GetTransactionsByHeight
     Observers ScanTargetFunc schedule).
Local Abbreviation scanLoop :=
  (scanLoop wm_Symbol wm_Decimal GenTxInputSID GenTxOutPutSID
     GenTransactionWxID GetWalletStatus GetBlockByHeight GetTransactionsByHeight
     Observers ScanTargetFunc schedule).
Local Abbreviation tailRescan :=
  (tailRescan wm_Symbol wm_Decimal GenTxInputSID GenTxOutPutSID
     GenTransactionWxID GetBlockByHeight GetTransactionsByHeight Observers
     ScanTargetFunc schedule).
Local Abbreviation RescanFailedRecord :=
  (RescanFailedRecord wm_Symbol wm_Decimal GenTxInputSID GenTxOutPutSID
     GenTransactionWxID GetBlockByHeight GetTransactionsByHeight Observers
     ScanTargetFunc schedule DeleteUnscanRecordNotFindTX).
Local Abbreviation ScanBlockTask :=
  (ScanBlockTask wm_Symbol wm_Decimal GenTxInputSID GenTxOutPutSID
     GenTransactionWxID GetWalletStatus GetBlockByHeight GetTransactionsByHeight
     Observers ScanTargetFunc schedule DeleteUnscanRecordNotFindTX).

(** The pass of the loop body that accepts a block. *)
Lemma scanIter_accept_pass
    (l : LoopState) (maxHeight : Z) (block : Block) (txs : list Transaction) :
  let s := loopState l in
  let H := currentHeight l + 1 in
  (forall r, schedule r ≡ₚ r) ->
  Scanning s = true ->
  GetBlockHeight = Ok maxHeight ->
  0 <= currentHeight l < maxHeight ->
  maxHeight < two64 ->
  GetBlockByHeight H = Ok block ->
  currentHash l = PrevBlockHash block ->
  GetTransactionsByHeight (Height block) = Ok txs ->
  exists s',
    scanIter l = Continue (mkLoop H (Hash block) s')
    /\ GetLocalNewBlock s' = (H, Hash block)
    /\ localBlocks s' = <[Height block := block]> (localBlocks s)
    /\ blockNotified s'
       = blockNotified s
         ++ map (fun o => (o, Block_BlockHeader block wm_Symbol))
              (seq 0 (length Observers))
    /\ Scanning s' = true.
Proof.
  cbv zeta. intros Hperm Hscan Hmax Hcur Htip Hb Hprev Htx.
  pose proof (scanIter_fetch wm_Symbol wm_Decimal GenTxInputSID GenTxOutPutSID
                GenTransactionWxID GetWalletStatus GetBlockByHeight
                GetTransactionsByHeight Observers ScanTargetFunc schedule
                l maxHeight Hscan Hmax (proj2 Hcur)) as Hiter.
  cbv zeta in Hiter. rewrite wrap64_small in Hiter by lia.
  rewrite Hb in Hiter.
  rewrite bool_decide_eq_true_2 in Hiter by exact Hprev. cbn [negb] in Hiter.
  pose proof (BatchExtractTransaction_listed wm_Symbol wm_Decimal GenTxInputSID
                GenTxOutPutSID GenTransactionWxID GetBlockByHeight
                GetTransactionsByHeight Observers ScanTargetFunc schedule
                (Height block) (Hash block) txs (loopState l) Hperm Htx) as Hnone.
  destruct (BatchExtractTransaction_queues wm_Symbol wm_Decimal GenTxInputSID
              GenTxOutPutSID GenTransactionWxID GetBlockByHeight
              GetTransactionsByHeight Observers ScanTargetFunc schedule
              (Height block) (Hash block) (loopState l))
    as [(records & notes & Hs & _) _].
  destruct (BatchExtractTransaction (Height block) (Hash block) (loopState l))
    as [s1 err].
  cbn [fst snd] in Hs, Hnone. subst s1 err.
  eexists. split; [exact Hiter|]. repeat split. exact Hscan.
Qed.

(** X12. A block that continues the local chain and whose transactions
    are listed is accepted: the loop goes on from its height with its hash,
    the cursor becomes (that height, that hash), the block is stored under
    the height it reports, each observer is sent exactly one header of it,
    not flagged as a fork, and the scanner keeps running. *)
Theorem scanIter_accepts
    (l : LoopState) (maxHeight : Z) (block : Block) (txs : list Transaction) :
  let s := loopState l in
  let H := currentHeight l + 1 in
  (forall r, schedule r ≡ₚ r) ->
  Scanning s = true ->
  GetBlockHeight = Ok maxHeight ->
  0 <= currentHeight l < maxHeight ->
  maxHeight < two64 ->
  GetBlockByHeight H = Ok block ->
  currentHash l = PrevBlockHash block ->
  GetTransactionsByHeight (Height block) = Ok txs ->
  exists s',
    scanIter l = Continue (mkLoop H (Hash block) s')
    /\ GetLocalNewBlock s' = (H, Hash block)
    /\ localBlocks s' = <[Height block := block]> (localBlocks s)
    /\ blockNotified s'
       = blockNotified s
         ++ map (fun o => (o, Block_BlockHeader block wm_Symbol))
              (seq 0 (length Observers))
    /\ Scanning s' = true.
Proof. exact (scanIter_accept_pass l maxHeight block txs). Qed.

(** X13. Over a chain that the wallet client serves without faults and
    that continues the block the scan starts from, the loop started at
    height c below or at the tip ends by [break] at the tip after tip - c
    passes and one more: the cursor is then (tip, hash of the tip) if
    there was anything to scan, and each observer has been sent exactly
    the headers of the blocks c + 1, ..., tip, in order, none flagged as a
    fork. *)
Theorem scanLoop_reaches_tip
    (chain : Z -> Block) (tip c : Z) (s : State) :
  (forall r, schedule r ≡ₚ r) ->
  (forall h, GetBlockByHeight h = Ok (chain h)) ->
  (forall h, PrevBlockHash (chain (h + 1)) = Hash (chain h)) ->
  (forall h, exists txs, GetTransactionsByHeight h = Ok txs) ->
  GetBlockHeight = Ok tip ->
  Scanning s = true ->
  0 <= c <= tip ->
  tip < two64 ->
  exists s',
    scanLoop (S (Z.to_nat (tip - c))) (mkLoop c (Hash (chain c)) s)
    = Broke (mkLoop tip (Hash (chain tip)) s')
    /\ GetLocalNewBlock s'
       = (if c <? tip then (tip, Hash (chain tip)) else GetLocalNewBlock s)
    /\ blockNotified s'
       = blockNotified s
         ++ blockHeaders wm_Symbol Observers chain false (seqZ (c + 1) (tip - c)).
Proof.
  intros Hperm Hchain Hlink Htxs Hmax Hscan Hc Htip.
  remember (Z.to_nat (tip - c)) as n eqn:Hn.
  revert c s Hscan Hc Hn.
  induction n as [|n IH]; intros c s Hscan Hc Hn.
  - assert (c = tip) as -> by lia.
    exists s. cbn [scanLoop]. unfold scanIter. cbn [loopState currentHeight].
    rewrite Hscan. cbn [negb]. rewrite Hmax. rewrite Z.leb_refl.
    rewrite Z.ltb_irrefl, Z.sub_diag. cbn. rewrite app_nil_r. done.
  - assert (Hlt : c < tip) by lia.
    destruct (Htxs (Height (chain (c + 1)))) as [txs Htx].
    pose proof (scanIter_accept_pass (mkLoop c (Hash (chain c)) s) tip
                  (chain (c + 1)) txs) as Hstep.
    cbv zeta in Hstep. cbn [loopState currentHeight currentHash] in Hstep.
    destruct (Hstep Hperm Hscan Hmax ltac:(lia) Htip (Hchain _)
                (eq_sym (Hlink c)) Htx)
      as (s1 & Hiter & Hcur1 & _ & Hnote1 & Hscan1).
    destruct (IH (c + 1) s1 Hscan1) as (s' & Hloop & Hcur & Hnote); [lia | lia |].
    exists s'. split; [|split].
    + change (scanLoop (S (S n)) ?l)
        with (match scanIter l with
              | Continue l' => scanLoop (S n) l'
              | Break l' => Broke l'
              | Return s0 => Returned s0
              end).
      rewrite Hiter. exact Hloop.
    + rewrite Hcur. rewrite (proj2 (Z.ltb_lt c tip)) by exact Hlt.
      destruct (c + 1 <? tip) eqn:E; [reflexivity|].
      apply Z.ltb_ge in E. assert (c + 1 = tip) as <- by lia. exact Hcur1.
    + rewrite Hnote, Hnote1. rewrite <- app_assoc. f_equal.
      rewrite (seqZ_cons (c + 1) (tip - c)) by lia.
      cbn [blockHeaders flat_map]. f_equal.
      unfold blockHeaders. f_equal. f_equal; lia.
Qed.


(** X14. When the block fetched at height H >= 2 does not continue the
    local chain and the block at the rewound height r = max (H - 2) 1 is
    found neither in the local store nor by the wallet client, the loop is
    left by [break] at height r with the hash it had: the cursor is not
    moved, no observer is told of the fork, and the unscanned records of
    height H - 1 are gone all the same. *)
Theorem fork_anchor_missing
    (l : LoopState) (maxHeight : Z) (block : Block) (e : error) :
  let s := loopState l in
  let H := currentHeight l + 1 in
  let r := Z.max (H - 2) 1 in
  Scanning s = true ->
  GetBlockHeight = Ok maxHeight ->
  currentHeight l < maxHeight ->
  2 <= H < two64 ->
  GetBlockByHeight H = Ok block ->
  currentHash l <> PrevBlockHash block ->
  localBlocks s !! r = None ->
  GetBlockByHeight r = Err e ->
  scanIter l = Break (mkLoop r (currentHash l) (DeleteUnscanRecord (H - 1) s))
  /\ GetLocalNewBlock (stateAfter (scanIter l)) = GetLocalNewBlock s
  /\ blockNotified (stateAfter (scanIter l)) = blockNotified s
  /\ recordsAt (H - 1) (stateAfter (scanIter l)) = [].
Proof.
  cbv zeta. intros Hscan Hmax Hlt HH Hb Hne Hlocal Hremote.
  pose proof (scanIter_fetch wm_Symbol wm_Decimal GenTxInputSID GenTxOutPutSID
                GenTransactionWxID GetWalletStatus GetBlockByHeight
                GetTransactionsByHeight Observers ScanTargetFunc schedule
                l maxHeight Hscan Hmax Hlt) as Hiter.
  cbv zeta in Hiter. rewrite wrap64_small in Hiter by lia.
  rewrite Hb in Hiter.
  rewrite bool_decide_eq_false_2 in Hiter by exact Hne. cbn [negb] in Hiter.
  unfold forkRecover in Hiter.
  rewrite !wrap64_small in Hiter by lia.
  replace (if currentHeight l + 1 - 2 <=? 0 then 1 else currentHeight l + 1 - 2)
    with (Z.max (currentHeight l + 1 - 2) 1) in Hiter
    by (destruct (currentHeight l + 1 - 2 <=? 0) eqn:E;
        [apply Z.leb_le in E | apply Z.leb_gt in E]; lia).
  rewrite resolveAnchor_DeleteUnscanRecord in Hiter.
  unfold resolveAnchor, GetLocalBlock in Hiter.
  rewrite Hlocal, Hremote in Hiter.
  rewrite Hiter. cbn [stateAfter loopState].
  split; [reflexivity|]. split; [reflexivity|]. split; [reflexivity|].
  apply recordsAt_DeleteUnscanRecord.
Qed.

(** X15. A paused scanner does nothing: with [Scanning] off a cycle
    returns the state as it found it, without tail rescan and without
    retry pass, whether or not the starting header could be read. *)
Theorem ScanBlockTask_paused (fuel : nat) (s : State) :
  Scanning s = false ->
  ScanBlockTask (S fuel) s = Some s.
Proof.
  intros Hscan. unfold ScanBlockTask.
  destruct (GetScannedBlockHeader s) as [blockHeader|e]; [|reflexivity].
  cbn [scanLoop]. unfold scanIter. cbn [loopState]. rewrite Hscan. reflexivity.
Qed.

(** X16. A running scanner whose cursor is at or above the wallet's
    height, or whose wallet does not answer, fetches no block: the cycle
    consists of the tail rescan below the cursor's height and the retry
    pass. *)
Theorem ScanBlockTask_idle (fuel : nat) (s : State) (c : Z) (hash : string) :
  Scanning s = true ->
  GetLocalNewBlock s = (c, hash) ->
  c <> 0 ->
  (exists e, GetBlockHeight = Err e)
  \/ (exists tip, GetBlockHeight = Ok tip /\ tip <= c) ->
  ScanBlockTask (S fuel) s = Some (RescanFailedRecord (tailRescan c s)).
Proof.
  intros Hscan Hcur Hc Hidle. unfold ScanBlockTask, GetScannedBlockHeader.
  rewrite Hcur. rewrite (proj2 (Z.eqb_neq c 0)) by exact Hc.
  cbn [bh_Height bh_Hash scanLoop]. unfold scanIter.
  cbn [loopState currentHeight]. rewrite Hscan. cbn [negb].
  destruct Hidle as [[e ->] | (tip & -> & Htip)]; [reflexivity|].
  rewrite (proj2 (Z.leb_le tip c)) by exact Htip. reflexivity.
Qed.

(** X17. [SetRescanBlockHeight] with a height from 1 on, when the block
    below it is found, returns nil and sets the cursor to that block.  A
    scan then starts from the height below the one asked for, with that
    block's hash, unless the height asked for is 1: the cursor is then at
    height 0, which a scan reads as no cursor at all. *)
Theorem SetRescanBlockHeight_then_scan (height : Z) (block : Block) (s : State) :
  1 <= height < two64 ->
  GetBlockByHeight (height - 1) = Ok block ->
  SetRescanBlockHeight height s
  = (SaveLocalNewBlock (height - 1) (Hash block) s, None)
  /\ GetScannedBlockHeader (SetRescanBlockHeight height s).1
     = (if height =? 1
        then GetScannedBlockHeader (SaveLocalNewBlock 0 "" s)
        else Ok (mkBlockHeader (Hash block) "" (height - 1) false "")).
Proof.
  intros Hh Hb.
  assert (Hset : SetRescanBlockHeight height s
                 = (SaveLocalNewBlock (height - 1) (Hash block) s, None)).
  { unfold SetRescanBlockHeight. rewrite wrap64_small by lia.
    rewrite (proj2 (Z.ltb_ge (height - 1) 0)) by lia. rewrite Hb. reflexivity. }
  split; [exact Hset|]. rewrite Hset. cbn [fst].
  unfold GetScannedBlockHeader. cbn.
  destruct (height =? 1) eqn:E.
  - apply Z.eqb_eq in E. subst height. reflexivity.
  - apply Z.eqb_neq in E.
    rewrite (proj2 (Z.eqb_neq (height - 1) 0)) by lia. reflexivity.
Qed.

(** The fork branch, once the rewound block is found. *)
Lemma scanIter_fork (l : LoopState) (maxHeight : Z) (block anchor : Block) :
  Scanning (loopState l) = true ->
  GetBlockHeight = Ok maxHeight ->
  currentHeight l < maxHeight ->
  2 <= currentHeight l + 1 < two64 ->
  GetBlockByHeight (currentHeight l + 1) = Ok block ->
  currentHash l <> PrevBlockHash block ->
  resolveAnchor GetBlockByHeight (Z.max (currentHeight l + 1 - 2) 1) (loopState l)
  = Ok anchor ->
  scanIter l
  = Continue
      (mkLoop (Z.max (currentHeight l + 1 - 2) 1) (Hash anchor)
         (match localBlocks (loopState l) !! (currentHeight l + 1 - 1) with
          | Some forkBlock =>
              newBlockNotify wm_Symbol Observers forkBlock true
                (SaveLocalNewBlock (Height anchor) (Hash anchor)
                   (DeleteUnscanRecord (currentHeight l + 1 - 1) (loopState l)))
          | None =>
              SaveLocalNewBlock (Height anchor) (Hash anchor)
                (DeleteUnscanRecord (currentHeight l + 1 - 1) (loopState l))
          end)).
Proof.
  intros Hscan Hmax Hlt HH Hb Hne Hanchor.
  pose proof (scanIter_fetch wm_Symbol wm_Decimal GenTxInputSID GenTxOutPutSID
                GenTransactionWxID GetWalletStatus GetBlockByHeight
                GetTransactionsByHeight Observers ScanTargetFunc schedule
                l maxHeight Hscan Hmax Hlt) as Hiter.
  cbv zeta in Hiter. rewrite wrap64_small in Hiter by lia.
  rewrite Hb in Hiter.
  rewrite bool_decide_eq_false_2 in Hiter by exact Hne. cbn [negb] in Hiter.
  unfold forkRecover in Hiter.
  rewrite !wrap64_small in Hiter by lia.
  replace (if currentHeight l + 1 - 2 <=? 0 then 1 else currentHeight l + 1 - 2)
    with (Z.max (currentHeight l + 1 - 2) 1) in Hiter
    by (destruct (currentHeight l + 1 - 2 <=? 0) eqn:E;
        [apply Z.leb_le in E | apply Z.leb_gt in E]; lia).
  rewrite resolveAnchor_DeleteUnscanRecord in Hiter.
  rewrite Hanchor in Hiter. unfold GetLocalBlock in Hiter.
  rewrite Hiter.
  destruct (localBlocks (loopState l) !! (currentHeight l + 1 - 1)); reflexivity.
Qed.

(** X19. A fork recovery leaves the stored blocks as they are, the
    abandoned ones included, and the log of data deliveries too; of the
    unscanned records it removes those of height H - 1 and no others. *)
Theorem fork_recovery_store
    (l : LoopState) (maxHeight : Z) (block anchor : Block) :
  let s := loopState l in
  let H := currentHeight l + 1 in
  Scanning s = true ->
  GetBlockHeight = Ok maxHeight ->
  currentHeight l < maxHeight ->
  2 <= H < two64 ->
  GetBlockByHeight H = Ok block ->
  currentHash l <> PrevBlockHash block ->
  resolveAnchor GetBlockByHeight (Z.max (H - 2) 1) s = Ok anchor ->
  localBlocks (stateAfter (scanIter l)) = localBlocks s
  /\ dataNotified (stateAfter (scanIter l)) = dataNotified s
  /\ recordsAt (H - 1) (stateAfter (scanIter l)) = []
  /\ forall h, h <> H - 1 ->
       recordsAt h (stateAfter (scanIter l)) = recordsAt h s.
Proof.
  cbv zeta. intros Hscan Hmax Hlt HH Hb Hne Hanchor.
  rewrite (scanIter_fork l maxHeight block anchor Hscan Hmax Hlt HH Hb Hne Hanchor).
  cbn [stateAfter loopState].
  assert (Hrec : forall h t,
             recordsAt h
               (match localBlocks (loopState l) !! (currentHeight l + 1 - 1) with
                | Some forkBlock =>
                    newBlockNotify wm_Symbol Observers forkBlock true
                      (SaveLocalNewBlock (Height anchor) (Hash anchor) t)
                | None => SaveLocalNewBlock (Height anchor) (Hash anchor) t
                end) = recordsAt h t)
    by (intros h t; destruct (localBlocks _ !! _); reflexivity).
  split; [destruct (localBlocks _ !! _); reflexivity|].
  split; [destruct (localBlocks _ !! _); reflexivity|].
  split.
  - rewrite Hrec. apply recordsAt_DeleteUnscanRecord.
  - intros h Hh. rewrite Hrec.
    apply recordsAt_DeleteUnscanRecord_other. congruence.
Qed.

(** Two passes through the loop body when block H cannot be fetched and
    block H + 1 does not follow the block the scan stands on: the failed
    fetch, then a fork recovery that leads back to where the scan stood. *)
Lemma scanLoop_two_passes
    (H tip : Z) (e : error) (next anchor : Block) (s : State) (fuel : nat) :
  GetBlockHeight = Ok tip ->
  2 <= H -> H + 1 <= tip -> tip < two64 ->
  GetBlockByHeight H = Err e ->
  GetBlockByHeight (H + 1) = Ok next ->
  Hash anchor <> PrevBlockHash next ->
  Scanning s = true ->
  localBlocks s !! (H - 1) = Some anchor ->
  exists s',
    scanLoop (S (S fuel)) (mkLoop (H - 1) (Hash anchor) s)
    = scanLoop fuel (mkLoop (H - 1) (Hash anchor) s')
    /\ Scanning s' = true
    /\ localBlocks s' !! (H - 1) = Some anchor.
Proof.
  intros Hmax HH Htip Hlim Hfail Hnext Hne Hscan Hlocal.
  set (l := mkLoop (H - 1) (Hash anchor) s).
  set (s1 := SaveUnscanRecord (NewUnscanRecord H "" (error_Error e)) s).
  assert (Hiter1 : scanIter l = Continue (mkLoop H (Hash anchor) s1)).
  { pose proof (scanIter_fetch wm_Symbol wm_Decimal GenTxInputSID GenTxOutPutSID
                  GenTransactionWxID GetWalletStatus GetBlockByHeight
                  GetTransactionsByHeight Observers ScanTargetFunc schedule
                  l tip Hscan Hmax) as Hiter.
    cbv zeta in Hiter. cbn [currentHeight currentHash loopState l] in Hiter.
    rewrite wrap64_small in Hiter by lia.
    replace (H - 1 + 1) with H in Hiter by lia.
    rewrite Hfail in Hiter. apply Hiter. lia. }
  pose proof (scanIter_fork (mkLoop H (Hash anchor) s1) tip next anchor) as Hiter2.
  cbn [currentHeight currentHash loopState] in Hiter2.
  replace (Z.max (H + 1 - 2) 1) with (H - 1) in Hiter2 by lia.
  specialize (Hiter2 Hscan Hmax ltac:(lia) ltac:(lia) Hnext Hne).
  unfold resolveAnchor, GetLocalBlock in Hiter2.
  change (localBlocks s1) with (localBlocks s) in Hiter2.
  rewrite Hlocal in Hiter2. specialize (Hiter2 eq_refl).
  eexists. split; [|split].
  - change (scanLoop (S (S fuel)) l)
      with (match scanIter l with
            | Continue l' => scanLoop (S fuel) l'
            | Break l' => Broke l'
            | Return s0 => Returned s0
            end).
    rewrite Hiter1.
    change (scanLoop (S fuel) ?l0)
      with (match scanIter l0 with
            | Continue l' => scanLoop fuel l'
            | Break l' => Broke l'
            | Return s0 => Returned s0
            end).
    rewrite Hiter2. reflexivity.
  - destruct (localBlocks s !! (H + 1 - 1)); exact Hscan.
  - destruct (localBlocks s !! (H + 1 - 1)); exact Hlocal.
Qed.

(** X20. While the wallet client cannot deliver block H (H >= 2) but
    delivers block H + 1, a scan standing on its stored block H - 1 does
    not get past H and does not end: the failed fetch of H is followed by
    the fetch of H + 1, which is taken for a fork and leads back to
    H - 1, over and over, for any number of passes. *)
Theorem scanLoop_stuck_below_missing_block
    (H tip : Z) (e : error) (next anchor : Block) (s : State) (fuel : nat) :
  GetBlockHeight = Ok tip ->
  2 <= H -> H + 1 <= tip -> tip < two64 ->
  GetBlockByHeight H = Err e ->
  GetBlockByHeight (H + 1) = Ok next ->
  Hash anchor <> PrevBlockHash next ->
  Scanning s = true ->
  localBlocks s !! (H - 1) = Some anchor ->
  exists l',
    scanLoop fuel (mkLoop (H - 1) (Hash anchor) s) = OutOfFuel l'
    /\ H - 1 <= currentHeight l' <= H.
Proof.
  intros Hmax HH Htip Hlim Hfail Hnext Hne Hscan Hlocal.
  assert (Hboth :
            forall n s0, Scanning s0 = true ->
              localBlocks s0 !! (H - 1) = Some anchor ->
              (exists l', scanLoop n (mkLoop (H - 1) (Hash anchor) s0) = OutOfFuel l'
                          /\ H - 1 <= currentHeight l' <= H)
              /\ (exists l', scanLoop (S n) (mkLoop (H - 1) (Hash anchor) s0)
                             = OutOfFuel l'
                             /\ H - 1 <= currentHeight l' <= H)).
  { induction n as [|n IH]; intros s0 Hscan0 Hlocal0.
    - split.
      + eexists. split; [reflexivity|]. cbn. lia.
      + pose proof (scanIter_fetch wm_Symbol wm_Decimal GenTxInputSID
                      GenTxOutPutSID GenTransactionWxID GetWalletStatus
                      GetBlockByHeight GetTransactionsByHeight Observers
                      ScanTargetFunc schedule
                      (mkLoop (H - 1) (Hash anchor) s0) tip Hscan0 Hmax) as Hiter.
        cbv zeta in Hiter. cbn [currentHeight currentHash loopState] in Hiter.
        rewrite wrap64_small in Hiter by lia.
        replace (H - 1 + 1) with H in Hiter by lia.
        rewrite Hfail in Hiter. cbn [scanLoop]. rewrite Hiter by lia.
        eexists. split; [reflexivity|]. cbn. lia.
    - split; [apply IH; assumption|].
      destruct (scanLoop_two_passes H tip e next anchor s0 n Hmax HH Htip Hlim
                  Hfail Hnext Hne Hscan0 Hlocal0) as (s' & -> & Hscan' & Hlocal').
      apply IH; assumption. }
  apply Hboth; assumption.
Qed.

End LoopFacts.

(** ** The arbitration loop *)

(** X18. The queue of [extractRuntime] is first in, first out and loses
    nothing while the loop runs: after any sequence of select cases, the
    values handed to the worker followed by the values still queued are
    the values queued at the start followed by the results received from
    the producer, in the order of their arrival. *)
Theorem extractRuntime_fifo
    (cases : list selectCase) (values handed rest : list ExtractResult)
    (returned : bool) :
  extractRuntime cases values = Some (handed, rest, returned) ->
  handed ++ rest = values ++ producedBeforeQuit cases.
Proof.
  revert values handed rest returned.
  induction cases as [|c cases IH]; intros values handed rest returned Hrun.
  - cbn in Hrun. injection Hrun as <- <- <-. cbn. by rewrite app_nil_r.
  - destruct c as [pa| |]; cbn [extractRuntime producedBeforeQuit] in *.
    + apply IH in Hrun. rewrite Hrun, <- app_assoc. reflexivity.
    + injection Hrun as <- <- <-. cbn. by rewrite app_nil_r.
    + destruct values as [|v values]; [discriminate|].
      destruct (extractRuntime cases values) as [[[h r] b]|] eqn:E; [|discriminate].
      injection Hrun as <- <- <-. apply IH in E. cbn. by rewrite E.
Qed.

(** ** The tail rescan within range *)

(** X21. With [RescanLastBlockCount] c no larger than the final height h,
    the tail rescan visits exactly the c heights h - c, ..., h - 1, in
    ascending order; with the count 0 that a new scanner has, none. *)
Theorem tailRescanHeights_below (h c : Z) :
  0 <= c <= h -> h < two64 ->
  tailRescanHeights h c = seqZ (h - c) c
  /\ length (tailRescanHeights h c) = Z.to_nat c
  /\ tailRescanHeights h 0 = [].
Proof.
  intros Hc Hh.
  rewrite (tailRescanHeights_in_range h c Hc Hh).
  rewrite (tailRescanHeights_in_range h 0) by lia.
  rewrite length_seqZ. done.
Qed.

(** ** The further properties at work in the sample world *)

Lemma sample_stranger :
  extractData
    (ExtractTransaction "BEAM" 8 Sample.inputSID Sample.outputSID Sample.wxID
       Sample.mainChain 7 "m7" Sample.transfer Sample2.stranger).1 = ∅.
Proof.
  apply (no_match_empty_result "BEAM" 8 Sample.inputSID Sample.outputSID
           Sample.wxID Sample.mainChain 7 "m7" Sample.transfer Sample2.stranger
           "" ""); [reflexivity | reflexivity | right; reflexivity].
Defined.

Lemma sample_empty_key :
  length
    (default []
       (extractData
          (ExtractTransaction "BEAM" 8 Sample.inputSID Sample.outputSID Sample.wxID
             Sample.mainChain 7 "m7" Sample.transfer Sample2.emptyKey).1 !! ""))
  = 2%nat.
Proof.
  destruct (empty_key_separate_sets "BEAM" 8 Sample.inputSID Sample.outputSID
              Sample.wxID Sample.mainChain 7 "m7" Sample.transfer Sample2.emptyKey
              true true) as [H _]; [reflexivity | reflexivity |].
  rewrite H. reflexivity.
Defined.

Lemma sample_entries_block :
  Forall (fun i => (r_BlockHeight (in_Recharge i), r_BlockHash (in_Recharge i))
                   = (7, "m7"))
    (TxInputs
       (initTxExtractData "BEAM" 8 Sample.inputSID Sample.outputSID Sample.wxID
          (stampTransaction Sample.mainChain 0 "" Sample.transfer) 0)).
Proof.
  destruct (entries_carry_block "BEAM" 8 Sample.inputSID Sample.outputSID
              Sample.wxID Sample.mainChain 0 "" Sample.transfer Sample.oneAccount
              "acct"
              [initTxExtractData "BEAM" 8 Sample.inputSID Sample.outputSID
                 Sample.wxID (stampTransaction Sample.mainChain 0 "" Sample.transfer) 0]
              (initTxExtractData "BEAM" 8 Sample.inputSID Sample.outputSID
                 Sample.wxID (stampTransaction Sample.mainChain 0 "" Sample.transfer) 0))
    as [H _]; [reflexivity | apply list_elem_of_here |].
  exact H.
Defined.

Lemma sample_adhoc_extraction :
  ExtractTransactionData "BEAM" 8 Sample.inputSID Sample.outputSID Sample.wxID
    Sample.mainChain Sample2.anyTransfer "tx1" Sample.oneAccount
  = Ok (extractData
          (ExtractTransaction "BEAM" 8 Sample.inputSID Sample.outputSID Sample.wxID
             Sample.mainChain 0 "" Sample.transfer Sample.oneAccount).1).
Proof.
  apply (ExtractTransactionData_result "BEAM" 8 Sample.inputSID Sample.outputSID
           Sample.wxID Sample.mainChain Sample2.anyTransfer "tx1" Sample.oneAccount).
Defined.

Lemma sample_retry_keeps :
  exists s',
    RescanFailedRecord "BEAM" 8 Sample.inputSID Sample.outputSID Sample.wxID
      (Sample.blockDown 5) Sample.oneTransfer [Sample.listener] Sample.oneAccount
      Sample.lastFirst Sample.noCleanup Sample2.queued
    = Sample.noCleanup s'
    /\ recordsAt 5 s' = recordsAt 5 Sample2.queued.
Proof.
  apply (RescanFailedRecord_keeps "BEAM" 8 Sample.inputSID Sample.outputSID
           Sample.wxID (Sample.blockDown 5) Sample.oneTransfer [Sample.listener]
           Sample.oneAccount Sample.lastFirst Sample.noCleanup Sample2.queued 5).
  right. left. eexists. reflexivity.
Defined.

Lemma sample_retry_clears :
  exists s',
    RescanFailedRecord "BEAM" 8 Sample.inputSID Sample.outputSID Sample.wxID
      Sample.mainChain Sample.oneTransfer [Sample.deaf] Sample.oneAccount
      Sample.lastFirst Sample.noCleanup Sample2.queued
    = Sample.noCleanup s'
    /\ Forall (fun r => ur_BlockHeight r = 0) (unscanRecords s').
Proof.
  apply (RescanFailedRecord_clears "BEAM" 8 Sample.inputSID Sample.outputSID
           Sample.wxID Sample.mainChain Sample.oneTransfer [Sample.deaf]
           Sample.oneAccount Sample.lastFirst Sample.noCleanup Sample2.queued).
  - intros l. unfold Sample.lastFirst. symmetry. apply Permutation_rev.
  - intros r _ _. split; eexists; reflexivity.
Defined.

Lemma sample_accept :
  exists s',
    scanIter "BEAM" 8 Sample.inputSID Sample.outputSID Sample.wxID
      (Sample.walletAt 10) Sample.mainChain Sample.oneTransfer
      [Sample.listener] Sample.oneAccount Sample.lastFirst
      (mkLoop 4 "m4" Sample.mainState)
    = Continue (mkLoop 5 "m5" s')
    /\ GetLocalNewBlock s' = (5, "m5").
Proof.
  destruct (scanIter_accepts "BEAM" 8 Sample.inputSID Sample.outputSID
              Sample.wxID (Sample.walletAt 10) Sample.mainChain
              Sample.oneTransfer [Sample.listener] Sample.oneAccount
              Sample.lastFirst (mkLoop 4 "m4" Sample.mainState) 10
              (Sample.mainBlock 5) [Sample.transfer])
    as (s' & Hiter & Hcur & _).
  - intros l. unfold Sample.lastFirst. symmetry. apply Permutation_rev.
  - reflexivity.
  - reflexivity.
  - cbn. lia.
  - reflexivity.
  - reflexivity.
  - reflexivity.
  - reflexivity.
  - exists s'. split; [exact Hiter | exact Hcur].
Defined.

Lemma sample_reach_tip :
  exists s',
    scanLoop "BEAM" 8 Sample.inputSID Sample.outputSID Sample.wxID
      (Sample.walletAt 7) Sample.mainChain Sample.oneTransfer
      [Sample.listener; Sample.deaf] Sample.twoAccounts Sample.lastFirst
      (S (Z.to_nat (7 - 4))) (mkLoop 4 (Hash (Sample.mainBlock 4)) Sample.mainState)
    = Broke (mkLoop 7 (Hash (Sample.mainBlock 7)) s')
    /\ GetLocalNewBlock s' = (7, "m7").
Proof.
  destruct (scanLoop_reaches_tip "BEAM" 8 Sample.inputSID Sample.outputSID
              Sample.wxID (Sample.walletAt 7) Sample.mainChain Sample.oneTransfer
              [Sample.listener; Sample.deaf] Sample.twoAccounts Sample.lastFirst
              Sample.mainBlock 7 4 Sample.mainState)
    as (s' & Hloop & Hcur & _).
  - intros l. unfold Sample.lastFirst. symmetry. apply Permutation_rev.
  - intros h. reflexivity.
  - intros h. unfold Sample.mainBlock. cbn [PrevBlockHash Hash].
    f_equal. lia.
  - intros h. eexists. reflexivity.
  - reflexivity.
  - reflexivity.
  - lia.
  - reflexivity.
  - exists s'. split; [exact Hloop | exact Hcur].
Defined.

Lemma sample_anchor_missing :
  scanIter "BEAM" 8 Sample.inputSID Sample.outputSID Sample.wxID
    (Sample.walletAt 10) (Sample.blockDown 3) Sample.noTransactions
    [Sample.listener] Sample.oneAccount Sample.lastFirst
    (mkLoop 4 "s4" Sample.mainState)
  = Break (mkLoop (Z.max (4 + 1 - 2) 1) "s4"
             (DeleteUnscanRecord (4 + 1 - 1) Sample.mainState)).
Proof.
  apply (fork_anchor_missing "BEAM" 8 Sample.inputSID Sample.outputSID
           Sample.wxID (Sample.walletAt 10) (Sample.blockDown 3)
           Sample.noTransactions [Sample.listener] Sample.oneAccount
           Sample.lastFirst (mkLoop 4 "s4" Sample.mainState) 10
           (Sample.mainBlock 5) (ErrOther "timeout"));
    [reflexivity | reflexivity | reflexivity | split; vm_compute; congruence
    | reflexivity | vm_compute; congruence | reflexivity | reflexivity].
Defined.

Lemma sample_paused :
  ScanBlockTask "BEAM" 8 Sample.inputSID Sample.outputSID Sample.wxID
    (Sample.walletAt 10) Sample.mainChain Sample.oneTransfer
    [Sample.listener] Sample.oneAccount Sample.lastFirst Sample.noCleanup
    3 (mkState false 2 (4, "m4") ∅ [] [] [])
  = Some (mkState false 2 (4, "m4") ∅ [] [] []).
Proof.
  apply (ScanBlockTask_paused "BEAM" 8 Sample.inputSID Sample.outputSID
           Sample.wxID (Sample.walletAt 10) Sample.mainChain Sample.oneTransfer
           [Sample.listener] Sample.oneAccount Sample.lastFirst Sample.noCleanup
           2 (mkState false 2 (4, "m4") ∅ [] [] [])).
  reflexivity.
Defined.

Lemma sample_idle :
  ScanBlockTask "BEAM" 8 Sample.inputSID Sample.outputSID Sample.wxID
    (Sample.walletAt 4) Sample.mainChain Sample.oneTransfer
    [Sample.listener] Sample.oneAccount Sample.lastFirst Sample.noCleanup
    1 Sample.mainState
  = Some
      (RescanFailedRecord "BEAM" 8 Sample.inputSID Sample.outputSID Sample.wxID
         Sample.mainChain Sample.oneTransfer [Sample.listener] Sample.oneAccount
         Sample.lastFirst Sample.noCleanup
         (tailRescan "BEAM" 8 Sample.inputSID Sample.outputSID Sample.wxID
            Sample.mainChain Sample.oneTransfer [Sample.listener]
            Sample.oneAccount Sample.lastFirst 4 Sample.mainState)).
Proof.
  apply (ScanBlockTask_idle "BEAM" 8 Sample.inputSID Sample.outputSID
           Sample.wxID (Sample.walletAt 4) Sample.mainChain Sample.oneTransfer
           [Sample.listener] Sample.oneAccount Sample.lastFirst Sample.noCleanup
           0 Sample.mainState 4 "m4");
    [reflexivity | reflexivity | discriminate |].
  right. exists 4. split; [reflexivity | lia].
Defined.

Lemma sample_rescan_from :
  GetScannedBlockHeader (Sample.walletAt 10) Sample.mainChain
    (SetRescanBlockHeight Sample.mainChain 3 Sample.mainState).1
  = Ok (mkBlockHeader (Hash (Sample.mainBlock (3 - 1))) "" (3 - 1) false "").
Proof.
  destruct (SetRescanBlockHeight_then_scan (Sample.walletAt 10) Sample.mainChain
              3 (Sample.mainBlock (3 - 1)) Sample.mainState) as [_ H];
    [split; vm_compute; congruence | reflexivity |].
  exact H.
Defined.

Lemma sample_queue_order :
  [Sample2.first] ++ [Sample2.second]
  = [] ++ producedBeforeQuit
            [FromProducer Sample2.first; FromProducer Sample2.second; WorkerTook;
             QuitClosed].
Proof.
  apply (extractRuntime_fifo
           [FromProducer Sample2.first; FromProducer Sample2.second; WorkerTook;
            QuitClosed]
           [] [Sample2.first] [Sample2.second] true).
  reflexivity.
Defined.

Lemma sample_fork_store :
  localBlocks
    (stateAfter
       (scanIter "BEAM" 8 Sample.inputSID Sample.outputSID Sample.wxID
          (Sample.walletAt 10) Sample.mainChain Sample.noTransactions
          [Sample.listener] Sample.oneAccount Sample.lastFirst
          (mkLoop 4 "s4" Sample.staleState)))
  = localBlocks Sample.staleState.
Proof.
  apply (fork_recovery_store "BEAM" 8 Sample.inputSID Sample.outputSID
           Sample.wxID (Sample.walletAt 10) Sample.mainChain
           Sample.noTransactions [Sample.listener] Sample.oneAccount
           Sample.lastFirst (mkLoop 4 "s4" Sample.staleState) 10
           (Sample.mainBlock 5) (Sample.staleBlock 3));
    [reflexivity | reflexivity | reflexivity | split; vm_compute; congruence
    | reflexivity | vm_compute; congruence | reflexivity].
Defined.

Lemma sample_stuck :
  exists l',
    scanLoop "BEAM" 8 Sample.inputSID Sample.outputSID Sample.wxID
      (Sample.walletAt 10) (Sample.blockDown 5) Sample.noTransactions
      [Sample.listener] Sample.oneAccount Sample.lastFirst
      7 (mkLoop (5 - 1) (Hash (Sample.staleBlock 4)) Sample.staleState)
    = OutOfFuel l'
    /\ 5 - 1 <= currentHeight l' <= 5.
Proof.
  apply (scanLoop_stuck_below_missing_block "BEAM" 8 Sample.inputSID
           Sample.outputSID Sample.wxID (Sample.walletAt 10) (Sample.blockDown 5)
           Sample.noTransactions [Sample.listener] Sample.oneAccount
           Sample.lastFirst 5 10 (ErrOther "timeout") (Sample.mainBlock 6)
           (Sample.staleBlock 4) Sample.staleState 7);
    [reflexivity | lia | lia | reflexivity | reflexivity | reflexivity
    | vm_compute; congruence | reflexivity | reflexivity].
Defined.

Lemma sample_tail_rescan :
  tailRescanHeights 5 3 = seqZ (5 - 3) 3.
Proof.
  apply (tailRescanHeights_below 5 3); [lia | reflexivity].
Defined.
